(** * Worker discovery and attestation tools of the Phala MCP server

    A shallow embedding of three pieces of the server's main module:

    - the module-level [workerCache] and the [getWorkerList] tool handler
      (cache check, refresh, over-fetch loop, TEE-type detection, filters);
    - the [initPhalaAPI] helper both handlers go through;
    - the [verifyAttestation] tool handler (primary verifier, on-chain
      fallback).

    The handlers are [async] functions that thread one mutable server state
    (the [api] handle and the [workerCache] object), may throw, and talk to
    external services.  They are embedded in a small state / exception /
    trace monad: the trace records, in order, every request that leaves the
    process.  One handler invocation is modelled as running to completion
    against a snapshot [Chain] of the external services.

    The second part of the definitions embeds further handlers of the same
    module and of the Phala Cloud service it calls: [getWorkerInfo],
    [getStakingInfo], the two DStack container handlers, [createWorkflow],
    [generateVRF], [sequentialThinking] and [sendPHAEthereum].
    [getWorkerInfo] has a trace type of its own, which adds its two
    lookups to the requests above; the staking-pallet queries of
    [getStakingInfo] are awaited without being recorded.  Handlers that do
    not touch the module state are plain functions that return their answer
    together with the requests they sent. *)

From Stdlib Require Import ZArith List String Bool Lia.
From Stdlib Require Import DecimalString.
Import ListNotations.

Local Open Scope string_scope.
Local Open Scope list_scope.
Local Open Scope Z_scope.

(** ** Data *)

(** A worker key, as the handler uses it: [key.args[0].toHex()]. *)
Definition Key := string.

(** Outcome of one awaited storage query.  [Rejected] covers a rejected
    promise and a lost [Promise.race] against the timeout timer; [Empty] is a
    codec value with [isEmpty] set. *)
Inductive Query (A : Type) : Type :=
| Rejected (msg : string)
| Empty
| Value (a : A).
Arguments Rejected {A} msg.
Arguments Empty {A}.
Arguments Value {A} a.

(** [workerInfo.toJSON()]: the fields the handlers read.  A field that is
    missing or [null] in the JSON object is [None]. *)
Record WorkerInfo : Type := mkWorkerInfo {
  info_attestationMethod : option string;
  info_features : option (list Z);
  info_confidenceLevel : option Z;
  info_runtimeVersion : option Z;
  info_initialScore : option Z;
  info_lastUpdated : option Z
}.

(** [response.data] of the attestation service. *)
Record VerifyData : Type := mkVerifyData {
  data_verified : option bool;
  data_type : option string;
  data_confidenceLevel : option Z;
  data_timestamp : option Z;
  data_details : option string
}.

(** Outcome of [axios.post]: the promise rejects (network error, non-2xx
    status), or resolves with a response whose [data] may be missing. *)
Inductive PostOutcome : Type :=
| PostRejected (msg : string)
| PostResolved (data : option VerifyData).

(** The external services as one handler invocation sees them. *)
Record Chain : Type := mkChain {
  (** [ApiPromise.create]: [None] when it resolves, the message when it
      throws. *)
  apiCreate : option string;
  (** [api.query.phalaRegistry.workers.keys()]. *)
  query_workers_keys : string + list Key;
  (** [api.query.phalaRegistry.workers(key)]. *)
  query_workers : Key -> Query WorkerInfo;
  (** [api.query.phalaRegistry.workerState], when the runtime has it. *)
  query_workerState : option (Key -> Query string);
  (** [POST <attestationService>/verify] with body [{workerKey, report}]. *)
  attestationService : Key -> option string -> PostOutcome
}.

(** [const workerCache = { data: null, timestamp: 0, TTL: 60000 }]. *)
Record WorkerCache : Type := mkWorkerCache {
  data : option (list Key);
  timestamp : Z
}.

Definition TTL : Z := 60000.

(** Module-level mutable state: [let api] and [workerCache]. *)
Record Server : Type := mkServer {
  api : bool;
  workerCache : WorkerCache
}.

Definition initialServer : Server :=
  mkServer false (mkWorkerCache None 0).

(** Requests that leave the process. *)
Inductive Event : Type :=
| EnumerateKeys
| QueryWorker (key : Key)
| QueryWorkerState (key : Key)
| PostVerify (key : Key) (report : option string).

Definition isEnumerate (e : Event) : bool :=
  match e with EnumerateKeys => true | _ => false end.

Definition isQueryWorker (e : Event) : bool :=
  match e with QueryWorker _ => true | _ => false end.

(** Number of key-set enumerations, resp. worker-info probes, in a trace. *)
Definition enumerations (tr : list Event) : nat :=
  List.length (List.filter isEnumerate tr).

Definition probes (tr : list Event) : nat :=
  List.length (List.filter isQueryWorker tr).

(** ** The handler monad: state, exceptions (an [Error] message), trace *)

Definition M (A : Type) : Type :=
  Server -> (string + A) * Server * list Event.

Definition ret {A} (a : A) : M A := fun s => (inr a, s, []).

Definition throw {A} (msg : string) : M A := fun s => (inl msg, s, []).

Definition bind {A B} (m : M A) (k : A -> M B) : M B := fun s =>
  match m s with
  | (inl e, s1, t1) => (inl e, s1, t1)
  | (inr a, s1, t1) =>
      match k a s1 with (r, s2, t2) => (r, s2, t1 ++ t2) end
  end.

(** [try { m } catch (error) { h error }]. *)
Definition tryCatch {A} (m : M A) (h : string -> M A) : M A := fun s =>
  match m s with
  | (inl e, s1, t1) =>
      match h e s1 with (r, s2, t2) => (r, s2, t1 ++ t2) end
  | (inr a, s1, t1) => (inr a, s1, t1)
  end.

Definition getServer : M Server := fun s => (inr s, s, []).
Definition putServer (s' : Server) : M unit := fun _ => (inr tt, s', []).
Definition emit (e : Event) : M unit := fun s => (inr tt, s, [e]).

Declare Scope handler_scope.
Delimit Scope handler_scope with handler.
Notation "x <- m ;; k" := (bind m (fun x => k))
  (at level 61, m at next level, right associativity) : handler_scope.
Notation "m ;;; k" := (bind m (fun _ => k))
  (at level 61, right associativity) : handler_scope.
Local Open Scope handler_scope.

(** Await a storage query: the request is sent, a rejection is thrown. *)
Definition await {A} (e : Event) (q : Query A) : M (option A) :=
  emit e ;;;
  match q with
  | Rejected msg => throw msg
  | Empty => ret None
  | Value a => ret (Some a)
  end.

(** ** JavaScript operators the handlers use *)

(** [x || 0] on a number. *)
Definition orZero (x : option Z) : Z :=
  match x with Some v => v | None => 0 end.

(** [x || null] on a number: [0] is falsy. *)
Definition orNull (x : option Z) : option Z :=
  match x with
  | Some v => if v =? 0 then None else Some v
  | None => None
  end.

(** Truthiness of an optional string argument. *)
Definition truthy (x : option string) : bool :=
  match x with
  | Some v => negb (v =? "")%string
  | None => false
  end.

(** [x || dflt] on a string. *)
Definition orString (x : option string) (dflt : string) : string :=
  match x with
  | Some v => if (v =? "")%string then dflt else v
  | None => dflt
  end.

(** [x === lit] for an optional string [x]. *)
Definition strictEq (x : option string) (lit : string) : bool :=
  match x with
  | Some v => (v =? lit)%string
  | None => false
  end.

(** [features.includes(n)]. *)
Definition includes (features : list Z) (n : Z) : bool :=
  existsb (Z.eqb n) features.

(** ** [initPhalaAPI] *)

(** [if (!api) { api = await ApiPromise.create(...) } return api]. *)
Definition initPhalaAPI (ch : Chain) : M unit :=
  s <- getServer ;;
  if api s then ret tt
  else
    match apiCreate ch with
    | Some msg => throw msg
    | None => putServer (mkServer true (workerCache s))
    end.

(** ** [getWorkerList] *)

(** Arguments of the handler, after the schema defaults are applied. *)
Record Args : Type := mkArgs {
  limit : Z;
  onlineOnly : bool;
  teeType : option string
}.

(** An element of [workerList]. *)
Record Worker : Type := mkWorker {
  w_publicKey : Key;
  w_confidenceLevel : Z;
  w_runtimeVersion : Z;
  w_attestationMethod : string;
  w_features : list Z;
  w_teeType : string;
  w_state : string;
  w_initialScore : option Z;
  w_lastUpdated : option Z
}.

(** The object handed to [JSON.stringify].  The empty-registry response has
    no [processed] property and the regular one has no [message]. *)
Record WorkerListBody : Type := mkWorkerListBody {
  totalWorkers : nat;
  showing : nat;
  processed : option Z;
  filters_onlineOnly : bool;
  filters_teeType : string;
  body_workers : list Worker;
  message : option string
}.

(** What a tool handler returns: the serialised object, or a plain text. *)
Inductive ToolResult (A : Type) : Type :=
| Json (body : A)
| Text (text : string).
Arguments Json {A} body.
Arguments Text {A} text.

(** The [else] branch of the cache check: enumerate the registry keys and
    overwrite [workerCache.data] and [workerCache.timestamp]. *)
Definition refreshWorkerKeys (ch : Chain) (now : Z) : M (list Key) :=
  emit EnumerateKeys ;;;
  match query_workers_keys ch with
  | inl msg => throw msg
  | inr keys =>
      s <- getServer ;;
      putServer (mkServer (api s) (mkWorkerCache (Some keys) now)) ;;;
      ret keys
  end.

(** The cache check at the head of the handler: the value bound to the
    local [workerKeys].  An array, even an empty one, is truthy. *)
Definition cachedWorkerKeys (ch : Chain) (now : Z) : M (list Key) :=
  s <- getServer ;;
  match data (workerCache s) with
  | Some keys =>
      if now - timestamp (workerCache s) <? TTL then ret keys
      else refreshWorkerKeys ch now
  | None => refreshWorkerKeys ch now
  end.

(** The [if]/[else if] chain that assigns [detectedTeeType]. *)
Definition detectedTeeType (attestationMethod : option string)
    (features : list Z) : string :=
  if strictEq attestationMethod "Ias" || includes features 1 then "Intel SGX"
  else if strictEq attestationMethod "Dcap" || includes features 2
       then "Intel TDX"
  else if includes features 3 then "AMD SEV"
  else if includes features 4 then "NVIDIA Confidential Computing"
  else "Unknown".

(** Guard of the first [continue]:
    [onlineOnly && workerState !== 'Ready' && workerState !== 'WorkerIdle']. *)
Definition onlineFilterSkips (onlineOnly : bool) (state : string) : bool :=
  onlineOnly && negb (state =? "Ready")%string
             && negb (state =? "WorkerIdle")%string.

(** Guard of the second [continue]:
    [teeType && detectedTeeType !== teeType && detectedTeeType !== 'Unknown']. *)
Definition teeTypeFilterSkips (teeType : option string) (detected : string)
  : bool :=
  truthy teeType
  && negb (match teeType with
           | Some t => (detected =? t)%string
           | None => false
           end)
  && negb (detected =? "Unknown")%string.

(** The worker-state lookup with its own [try]/[catch]: anything but a
    non-empty answer leaves ['Unknown']. *)
Definition lookupWorkerState (ch : Chain) (key : Key) : M string :=
  match query_workerState ch with
  | None => ret "Unknown"
  | Some q =>
      tryCatch
        (state <- await (QueryWorkerState key) (q key) ;;
         match state with
         | Some st => ret st
         | None => ret "Unknown"
         end)
        (fun _ => ret "Unknown")
  end.

(** How one iteration of the [for] loop leaves its [try] block. *)
Inductive Iteration : Type :=
| Skipped                (* [continue]: the counter is not touched *)
| Pushed (w : Worker)    (* [workerList.push(...)] *)
| Failed.                (* the [catch] block ran *)

Definition buildWorker (key : Key) (info : WorkerInfo) (state : string)
  : Worker :=
  let features :=
    match info_features info with Some f => f | None => [] end in
  mkWorker key
    (orZero (info_confidenceLevel info))
    (orZero (info_runtimeVersion info))
    (orString (info_attestationMethod info) "Unknown")
    features
    (detectedTeeType (info_attestationMethod info) features)
    state
    (orNull (info_initialScore info))
    (orNull (info_lastUpdated info)).

(** The body of the [try] block of one iteration. *)
Definition tryWorker (ch : Chain) (a : Args) (key : Key) : M Iteration :=
  workerInfo <- await (QueryWorker key) (query_workers ch key) ;;
  match workerInfo with
  | None => ret Skipped
  | Some info =>
      state <- lookupWorkerState ch key ;;
      if onlineFilterSkips (onlineOnly a) state then ret Skipped
      else
        let w := buildWorker key info state in
        if teeTypeFilterSkips (teeType a) (w_teeType w) then ret Skipped
        else ret (Pushed w)
  end.

(** [for (const key of workerKeys) { ... }] with its two [break] guards; the
    accumulators are [workerList] and [processedCount]. *)
Fixpoint forWorkerKeys (ch : Chain) (a : Args) (maxToProcess : Z)
    (keys : list Key) (workerList : list Worker) (processedCount : Z)
  : M (list Worker * Z) :=
  match keys with
  | [] => ret (workerList, processedCount)
  | key :: rest =>
      if processedCount >=? maxToProcess then ret (workerList, processedCount)
      else if Z.of_nat (List.length workerList) >=? limit a
      then ret (workerList, processedCount)
      else
        it <- tryCatch (tryWorker ch a key) (fun _ => ret Failed) ;;
        match it with
        | Skipped =>
            forWorkerKeys ch a maxToProcess rest workerList processedCount
        | Pushed w =>
            forWorkerKeys ch a maxToProcess rest (workerList ++ [w])
              (processedCount + 1)
        | Failed =>
            forWorkerKeys ch a maxToProcess rest workerList
              (processedCount + 1)
        end
  end.

Definition maxToProcess (a : Args) : Z := Z.min (limit a * 3) 30.

(** The handler after the cache block: the empty-registry early return,
    the loop, and the regular response. *)
Definition listWorkers (ch : Chain) (a : Args) (workerKeys : list Key)
  : M (ToolResult WorkerListBody) :=
  match workerKeys with
  | [] =>
      ret (Json (mkWorkerListBody 0 0 None
                   (onlineOnly a) (orString (teeType a) "all") []
                   (Some "No workers registered on the network")))
  | _ :: _ =>
      r <- forWorkerKeys ch a (maxToProcess a) workerKeys [] 0 ;;
      let '(workerList, processedCount) := r in
      ret (Json (mkWorkerListBody (List.length workerKeys)
                   (List.length workerList) (Some processedCount)
                   (onlineOnly a) (orString (teeType a) "all") workerList
                   None))
  end.

(** The handler; [now] is the value of [Date.now()]. *)
Definition getWorkerList (ch : Chain) (now : Z) (a : Args)
  : M (ToolResult WorkerListBody) :=
  tryCatch
    (initPhalaAPI ch ;;;
     workerKeys <- cachedWorkerKeys ch now ;;
     listWorkers ch a workerKeys)
    (fun msg => ret (Text ("Error getting worker list: " ++ msg)%string)).

(** ** [verifyAttestation] *)

(** The two objects the handler serialises. *)
Inductive AttestationBody : Type :=
| FromService (worker : Key) (verified : option bool)
    (attestationType : option string) (confidenceLevel : option Z)
    (timestamp : option Z) (details : option string)
| OnChain (worker : Key) (onChainVerified : bool) (confidenceLevel : Z)
    (note : string).

(** The outer [try] block: post to the attestation service and read
    [response.data.*]; reading a property of a missing [data] throws. *)
Definition tryService (ch : Chain) (workerPublicKey : Key)
    (reportData : option string) : M (ToolResult AttestationBody) :=
  emit (PostVerify workerPublicKey reportData) ;;;
  match attestationService ch workerPublicKey reportData with
  | PostRejected msg => throw msg
  | PostResolved None =>
      throw "Cannot read properties of undefined (reading 'verified')"
  | PostResolved (Some d) =>
      ret (Json (FromService workerPublicKey (data_verified d) (data_type d)
                   (data_confidenceLevel d) (data_timestamp d)
                   (data_details d)))
  end.

(** The inner [try] block: the on-chain fallback. *)
Definition tryOnChain (ch : Chain) (workerPublicKey : Key)
  : M (ToolResult AttestationBody) :=
  initPhalaAPI ch ;;;
  workerInfo <- await (QueryWorker workerPublicKey)
                  (query_workers ch workerPublicKey) ;;
  match workerInfo with
  | None => throw "Worker not found"
  | Some info =>
      ret (Json (OnChain workerPublicKey true
                   (orZero (info_confidenceLevel info))
                   "Attestation verified on-chain"))
  end.

(** The handler.  The inner [catch] binds [onChainError] and formats the
    outer [error]. *)
Definition verifyAttestation (ch : Chain) (workerPublicKey : Key)
    (reportData : option string) : M (ToolResult AttestationBody) :=
  tryCatch
    (tryService ch workerPublicKey reportData)
    (fun error =>
       tryCatch
         (tryOnChain ch workerPublicKey)
         (fun onChainError =>
            ret (Text ("Error verifying attestation: " ++ error)%string))).

(** The message of the error that sends [verifyAttestation] into its
    [catch] block, if the outer [try] block throws at all. *)
Definition serviceError (o : PostOutcome) : option string :=
  match o with
  | PostRejected msg => Some msg
  | PostResolved None =>
      Some "Cannot read properties of undefined (reading 'verified')"
  | PostResolved (Some _) => None
  end.

(** ** Reference definitions, written after the specification *)

(** The classifier's precedence table as the specification words it:
    method [Ias], then method [Dcap], then flag 3, then flag 4. *)
Definition classify_table (attestationMethod : option string)
    (featureFlags : list Z) : string :=
  if strictEq attestationMethod "Ias" then "Intel SGX"
  else if strictEq attestationMethod "Dcap" then "Intel TDX"
  else if includes featureFlags 3 then "AMD SEV"
  else if includes featureFlags 4 then "NVIDIA Confidential Computing"
  else "Unknown".

(** The filter predicate as the specification words it: [onlineOnly] asks
    for a [Ready] or [WorkerIdle] state, a category filter for that category
    or [Unknown], and both are conjoined. *)
Definition matches_reference (onlineOnly : bool)
    (categoryFilter : option string) (w : Worker) : bool :=
  (if onlineOnly
   then (w_state w =? "Ready")%string || (w_state w =? "WorkerIdle")%string
   else true)
  &&
  match categoryFilter with
  | Some c => (w_teeType w =? c)%string || (w_teeType w =? "Unknown")%string
  | None => true
  end.

(** The filter predicate as the loop applies it: neither [continue] guard
    fires. *)
Definition passesFilters (a : Args) (w : Worker) : bool :=
  negb (onlineFilterSkips (onlineOnly a) (w_state w))
  && negb (teeTypeFilterSkips (teeType a) (w_teeType w)).

(** ** Concrete services and states *)

Definition sgxInfo : WorkerInfo :=
  mkWorkerInfo (Some "Ias") (Some [3; 4]) (Some 2) (Some 5) None None.

Definition noVerifier : Key -> option string -> PostOutcome :=
  fun _ _ => PostRejected "Network Error".

(** Five registered workers, none of them online. *)
Definition unresponsiveRegistry : Chain :=
  mkChain None (inr ["0x01"; "0x02"; "0x03"; "0x04"; "0x05"])
    (fun _ => Value sgxInfo)
    (Some (fun _ => Value "WorkerUnresponsive"))
    noVerifier.

(** Five registered workers, all of them ready. *)
Definition readyRegistry : Chain :=
  mkChain None (inr ["0x01"; "0x02"; "0x03"; "0x04"; "0x05"])
    (fun _ => Value sgxInfo)
    (Some (fun _ => Value "Ready"))
    noVerifier.

(** A registry without workers. *)
Definition emptyRegistry : Chain :=
  mkChain None (inr []) (fun _ => Empty) None noVerifier.

(** A node whose key enumeration fails. *)
Definition unreachableRegistry : Chain :=
  mkChain None (inl "RPC down") (fun _ => Rejected "RPC down") None noVerifier.

(** An attestation service that rejects a request without a report
    differently from one with a report, over a registry without workers. *)
Definition pickyVerifier : Chain :=
  mkChain None (inr []) (fun _ => Empty) None
    (fun _ report =>
       match report with
       | None => PostRejected "Request failed with status code 400"
       | Some _ => PostRejected "Request failed with status code 422"
       end).

(** A server that enumerated [0xaa] at time 0. *)
Definition staleServer : Server :=
  mkServer true (mkWorkerCache (Some ["0xaa"]) 0).

Definition defaultArgs : Args := mkArgs 10 false None.

(** * The other handlers of the module *)

(** [l1] is [l2] with some elements left out, order kept. *)
Inductive subsequence {A : Type} : list A -> list A -> Prop :=
| subsequence_nil : subsequence [] []
| subsequence_skip (x : A) (l1 l2 : list A) :
    subsequence l1 l2 -> subsequence l1 (x :: l2)
| subsequence_take (x : A) (l1 l2 : list A) :
    subsequence l1 l2 -> subsequence (x :: l1) (x :: l2).

(** ** [getWorkerInfo] *)

(** The two optional registry queries only [getWorkerInfo] uses:
    [api.query.phalaRegistry.workerBindings] and
    [api.query.phalaRegistry.endpoints], when the runtime has them.  A
    binding is kept as its JSON text, an endpoint as its [toString()]. *)
Record RegistryExtras : Type := mkRegistryExtras {
  query_workerBindings : option (Key -> Query string);
  query_endpoints : option (Key -> Query string)
}.

(** The requests [getWorkerInfo] sends: those the listing sends too, and
    the two lookups of its own. *)
Inductive InfoRequest : Type :=
| Recorded (e : Event)
| QueryWorkerBindings (key : Key)
| QueryEndpoints (key : Key).

(** The requests of a [getWorkerInfo] trace that the listing knows. *)
Fixpoint recorded (tr : list InfoRequest) : list Event :=
  match tr with
  | [] => []
  | Recorded e :: rest => e :: recorded rest
  | _ :: rest => recorded rest
  end.

(** The handler monad over the trace of [getWorkerInfo]. *)
Definition MI (A : Type) : Type :=
  Server -> (string + A) * Server * list InfoRequest.

Definition retI {A} (a : A) : MI A := fun s => (inr a, s, []).

Definition throwI {A} (msg : string) : MI A := fun s => (inl msg, s, []).

Definition bindI {A B} (m : MI A) (k : A -> MI B) : MI B := fun s =>
  match m s with
  | (inl e, s1, t1) => (inl e, s1, t1)
  | (inr a, s1, t1) =>
      match k a s1 with (r, s2, t2) => (r, s2, t1 ++ t2) end
  end.

Definition tryCatchI {A} (m : MI A) (h : string -> MI A) : MI A := fun s =>
  match m s with
  | (inl e, s1, t1) =>
      match h e s1 with (r, s2, t2) => (r, s2, t1 ++ t2) end
  | (inr a, s1, t1) => (inr a, s1, t1)
  end.

(** Run a piece the listing shares, keeping its trace. *)
Definition shared {A} (m : M A) : MI A := fun s =>
  match m s with (r, s1, t1) => (r, s1, map Recorded t1) end.

Declare Scope info_scope.
Delimit Scope info_scope with info.
Notation "x <- m ;; k" := (bindI m (fun x => k))
  (at level 61, m at next level, right associativity) : info_scope.
Notation "m ;;; k" := (bindI m (fun _ => k))
  (at level 61, right associativity) : info_scope.

(** The [result] object of [getWorkerInfo]: [{ publicKey, ...info }] and the
    properties added when the optional lookups answer. *)
Record WorkerDetails : Type := mkWorkerDetails {
  d_publicKey : Key;
  d_info : WorkerInfo;
  d_state : option string;
  d_binding : option string;
  d_endpoint : option string
}.

(** [if (api.query.X) { const v = await api.query.X(key); if (!v.isEmpty)
    result.x = ... }], with no [try] of its own: the request is sent when
    the runtime has the query, and a rejection is thrown. *)
Definition optionalLookup (q : option (Key -> Query string))
    (request : Key -> InfoRequest) (key : Key) : MI (option string) :=
  match q with
  | None => retI None
  | Some f =>
      fun s =>
        match f key with
        | Rejected msg => (inl msg, s, [request key])
        | Empty => (inr None, s, [request key])
        | Value v => (inr (Some v), s, [request key])
        end
  end.

(** The handler. *)
Definition getWorkerInfo (ch : Chain) (ex : RegistryExtras)
    (workerPublicKey : Key) : MI (ToolResult WorkerDetails) :=
  tryCatchI
    (shared (initPhalaAPI ch) ;;;
     workerInfo <- shared (await (QueryWorker workerPublicKey)
                             (query_workers ch workerPublicKey)) ;;
     match workerInfo with
     | None => throwI "Worker not found"
     | Some info =>
         state <- optionalLookup (query_workerState ch)
                    (fun k => Recorded (QueryWorkerState k))
                    workerPublicKey ;;
         binding <- optionalLookup (query_workerBindings ex)
                      QueryWorkerBindings workerPublicKey ;;
         endpoint <- optionalLookup (query_endpoints ex)
                       QueryEndpoints workerPublicKey ;;
         retI (Json (mkWorkerDetails workerPublicKey info state binding
                       endpoint))
     end)%info
    (fun msg => retI (Text ("Error getting worker info: " ++ msg)%string)).

(** ** [getStakingInfo] *)

(** [api.query.phalaStakePool.stakePools]: the lookup by pool id and its
    [entries()].  A pool is kept as the JSON text of [toJSON()], an entry as
    the pair of [key.args[0].toString()] and that text. *)
Record StakePoolsQuery : Type := mkStakePoolsQuery {
  stakePools_at : string -> Query string;
  stakePools_entries : string + list (string * string)
}.

(** [api.query.phalaStakePool.poolContributions]: the lookup by pool id and
    delegator and its [entries()], each entry with [key.args] as the pair
    (pool id, delegator). *)
Record PoolContributionsQuery : Type := mkPoolContributionsQuery {
  poolContributions_at : string -> string -> Query string;
  poolContributions_entries : string + list ((string * string) * string)
}.

(** [api.query.phalaStakePool], with the queries the runtime has. *)
Record StakePoolModule : Type := mkStakePoolModule {
  stakePools : option StakePoolsQuery;
  poolContributions : option PoolContributionsQuery
}.

(** [api.query.phalaStakePool && api.query.phalaStakePool.X]. *)
Definition moduleQuery {Q : Type} (staking : option StakePoolModule)
    (field : StakePoolModule -> option Q) : option Q :=
  match staking with
  | Some m => field m
  | None => None
  end.

(** The three objects the handler serialises. *)
Inductive StakingBody : Type :=
| PoolBody (poolId : string) (info : string) (delegation : option string)
| DelegationsBody (address : string) (delegations : list (string * string))
    (totalPools : nat)
| PoolsBody (totalPools : nat) (pools : list (string * string)).

(** Await a storage query that the trace does not record. *)
Definition awaitQuery {A} (q : Query A) : M (option A) :=
  match q with
  | Rejected msg => throw msg
  | Empty => ret None
  | Value v => ret (Some v)
  end.

(** Await an [entries()] call. *)
Definition awaitEntries {A} (r : string + list A) : M (list A) :=
  match r with
  | inl msg => throw msg
  | inr entries => ret entries
  end.

(** The [for] loop of the address branch: push [{ poolId, amount }] for
    every entry whose delegator is [address]. *)
Fixpoint userDelegations (address : string)
    (delegations : list ((string * string) * string))
  : list (string * string) :=
  match delegations with
  | [] => []
  | ((poolId, delegator), value) :: rest =>
      if (delegator =? address)%string
      then (poolId, value) :: userDelegations address rest
      else userDelegations address rest
  end.

(** The branch taken when [poolId] is truthy. *)
Definition poolBranch (staking : option StakePoolModule) (poolId : string)
    (address : option string) : M (ToolResult StakingBody) :=
  match moduleQuery staking stakePools with
  | None => throw "Staking module not available"
  | Some q =>
      poolInfo <- awaitQuery (stakePools_at q poolId) ;;
      match poolInfo with
      | None => throw "Pool not found"
      | Some info =>
          delegationInfo <-
            match address, moduleQuery staking poolContributions with
            | Some addr, Some c =>
                if (addr =? "")%string then ret None
                else awaitQuery (poolContributions_at c poolId addr)
            | _, _ => ret None
            end ;;
          ret (Json (PoolBody poolId info delegationInfo))
      end
  end.

(** The branch taken when [poolId] is falsy and [address] is truthy. *)
Definition addressBranch (staking : option StakePoolModule)
    (address : string) : M (ToolResult StakingBody) :=
  match moduleQuery staking poolContributions with
  | None => throw "Staking module not available"
  | Some c =>
      delegations <- awaitEntries (poolContributions_entries c) ;;
      let found := userDelegations address delegations in
      ret (Json (DelegationsBody address found (List.length found)))
  end.

(** The branch taken when both are falsy. *)
Definition generalBranch (staking : option StakePoolModule)
  : M (ToolResult StakingBody) :=
  match moduleQuery staking stakePools with
  | None => ret (Text "Staking module not available on this network")
  | Some q =>
      pools <- awaitEntries (stakePools_entries q) ;;
      ret (Json (PoolsBody (List.length pools) (firstn 10 pools)))
  end.

(** The handler: [if (poolId) ... else if (address) ... else ...]. *)
Definition getStakingInfo (ch : Chain) (staking : option StakePoolModule)
    (poolId address : option string) : M (ToolResult StakingBody) :=
  tryCatch
    (initPhalaAPI ch ;;;
     let withoutPool :=
       match address with
       | Some addr =>
           if (addr =? "")%string then generalBranch staking
           else addressBranch staking addr
       | None => generalBranch staking
       end in
     match poolId with
     | Some p =>
         if (p =? "")%string then withoutPool
         else poolBranch staking p address
     | None => withoutPool
     end)
    (fun msg => ret (Text ("Error getting staking info: " ++ msg)%string)).

(** ** Predicates and sample data for the further properties *)

(** A record of the listing: it was built from the answer of the
    worker-info query for its own key, and it passes both filters. *)
Definition listed (ch : Chain) (a : Args) (w : Worker) : Prop :=
  passesFilters a w = true /\
  exists info state,
    query_workers ch (w_publicKey w) = Value info /\
    w = buildWorker (w_publicKey w) info state.

(** Three contributions, two of them by [alice]. *)
Definition sampleContributions : PoolContributionsQuery :=
  mkPoolContributionsQuery (fun _ _ => Empty)
    (inr [(("7", "alice"), "100"); (("8", "bob"), "5");
          (("9", "alice"), "30")]).

(** Twelve pools, [1] to [12]. *)
Definition twelvePools : StakePoolsQuery :=
  mkStakePoolsQuery (fun _ => Empty)
    (inr [("1", "{}"); ("2", "{}"); ("3", "{}"); ("4", "{}"); ("5", "{}");
          ("6", "{}"); ("7", "{}"); ("8", "{}"); ("9", "{}"); ("10", "{}");
          ("11", "{}"); ("12", "{}")]).


(** ** The DStack container handlers *)

(** The two entries of [PHALA_CONFIG] these handlers read:
    [dstack.apiUrl] and [apiKey], each an environment variable or [null]. *)
Record Config : Type := mkConfig {
  dstack_apiUrl : option string;
  apiKey : option string
}.

(** What a [catch] block can see of a thrown error: [error.message],
    [error.code] and [error.response?.status].  An [Error] made with
    [new Error(message)] has neither code nor response. *)
Record HttpError : Type := mkHttpError {
  err_message : string;
  err_code : option string;
  err_status : option Z
}.

Definition plainError (message : string) : HttpError :=
  mkHttpError message None None.

(** Outcome of an [axios] call: the promise rejects, or resolves with a
    response whose [data] may be missing. *)
Inductive HttpOutcome (A : Type) : Type :=
| HttpFailed (e : HttpError)
| HttpOk (data : option A).
Arguments HttpFailed {A} e.
Arguments HttpOk {A} data.

(** A request as it leaves the process: the URL and the [Authorization]
    header, if one is set. *)
Record HttpRequest : Type := mkHttpRequest {
  req_url : string;
  req_authorization : option string
}.

(** [...(PHALA_CONFIG.apiKey && { 'Authorization': `Bearer ${apiKey}` })]. *)
Definition bearer (cfg : Config) : option string :=
  match apiKey cfg with
  | Some k => if (k =? "")%string then None else Some ("Bearer " ++ k)%string
  | None => None
  end.

(** Decimal text of a whole number, as a template literal prints it. *)
Definition showZ (z : Z) : string := NilZero.string_of_int (Z.to_int z).

(** [x || dflt] on a number. *)
Definition orNumber (x : option Z) (dflt : Z) : Z :=
  match x with
  | Some v => if v =? 0 then dflt else v
  | None => dflt
  end.

(** [error.code === 'ECONNREFUSED' || error.code === 'ENOTFOUND']. *)
Definition unreachable (e : HttpError) : bool :=
  strictEq (err_code e) "ECONNREFUSED" || strictEq (err_code e) "ENOTFOUND".

(** [error.response?.status === n]. *)
Definition hasStatus (e : HttpError) (n : Z) : bool :=
  match err_status e with
  | Some st => st =? n
  | None => false
  end.

(** *** [getContainerStatus] *)

(** [response.data] of [GET /containers/<id>]; nested values are kept as
    their JSON text. *)
Record ContainerData : Type := mkContainerData {
  cd_name : option string;
  cd_image : option string;
  cd_status : option string;
  cd_uptime : option string;
  cd_resources : option string;
  cd_metrics : option string;
  cd_attestation : option string;
  cd_logs : option (list string)
}.

(** [logs.slice(-10)]. *)
Definition lastTen (logs : list string) : list string :=
  skipn (List.length logs - 10) logs.

(** The two objects the handler serialises. *)
Inductive ContainerStatusBody : Type :=
| ContainerStatus (containerId : string) (name image status uptime resources
    metrics attestation : option string) (logs : option (list string))
| ContainerStatusError (error message hint containerId : string).

(** The [if]/[else if] chain of the [catch] block and the [hint || ...]
    default. *)
Definition statusHint (e : HttpError) : string :=
  let hint :=
    if hasStatus e 404
    then "Container not found. Please verify the container ID."
    else if unreachable e then "DStack service is currently unavailable."
    else "" in
  if (hint =? "")%string
  then "Please verify the container ID and DStack configuration"
  else hint.

(** The handler: the answer and the requests sent. *)
Definition getContainerStatus (cfg : Config)
    (get : HttpRequest -> HttpOutcome ContainerData) (containerId : string)
  : ContainerStatusBody * list HttpRequest :=
  let failed (e : HttpError) :=
    ContainerStatusError "Failed to get container status" (err_message e)
      (statusHint e) containerId in
  match dstack_apiUrl cfg with
  | Some url =>
      if (url =? "")%string
      then (failed (plainError
              ("DStack API endpoint not configured. " ++
               "Please set DSTACK_API_URL environment variable to access container status.")),
            [])
      else
        let request :=
          mkHttpRequest (url ++ "/containers/" ++ containerId)%string
            (bearer cfg) in
        match get request with
        | HttpFailed e => (failed e, [request])
        | HttpOk None =>
            (failed (plainError "Invalid response from DStack API"),
             [request])
        | HttpOk (Some d) =>
            (ContainerStatus containerId (cd_name d) (cd_image d)
               (cd_status d) (cd_uptime d) (cd_resources d) (cd_metrics d)
               (cd_attestation d) (option_map lastTen (cd_logs d)),
             [request])
        end
  | None =>
      (failed (plainError
         ("DStack API endpoint not configured. " ++
          "Please set DSTACK_API_URL environment variable to access container status.")),
       [])
  end.

(** *** [deployContainer] *)

(** The [resources] argument; CPU and memory are taken to be whole
    numbers. *)
Record Resources : Type := mkResources {
  res_cpu : option Z;
  res_memory : option Z;
  res_gpu : option bool
}.

(** Arguments of the handler. *)
Record DeployArgs : Type := mkDeployArgs {
  dep_image : string;
  dep_name : string;
  dep_clusterId : string;
  dep_env : option (list (string * string));
  dep_ports : option (list Z);
  dep_resources : option Resources
}.

(** [resources?.field]. *)
Definition resource {A} (args : DeployArgs) (field : Resources -> option A)
  : option A :=
  match dep_resources args with
  | Some r => field r
  | None => None
  end.

(** [deploymentConfig], the body of the request. *)
Record DeploymentConfig : Type := mkDeploymentConfig {
  dc_image : string;
  dc_name : string;
  dc_cluster : string;
  dc_env : list (string * string);
  dc_ports : list Z;
  dc_cpu : Z;
  dc_memory : Z;
  dc_gpu : bool;
  dc_teeType : string;
  dc_attestation_required : bool;
  dc_attestation_level : string
}.

Definition gpuRequested (args : DeployArgs) : bool :=
  match resource args res_gpu with
  | Some g => g
  | None => false
  end.

Definition deploymentConfig (args : DeployArgs) : DeploymentConfig :=
  mkDeploymentConfig (dep_image args) (dep_name args) (dep_clusterId args)
    (match dep_env args with Some e => e | None => [] end)
    (match dep_ports args with Some p => p | None => [] end)
    (orNumber (resource args res_cpu) 1)
    (orNumber (resource args res_memory) 512)
    (gpuRequested args)
    (if gpuRequested args then "NVIDIA H100" else "Intel SGX")
    true "strict".

(** [response.data] of [POST /containers/deploy]. *)
Record DeployData : Type := mkDeployData {
  dd_containerId : option string;
  dd_endpoint : option string;
  dd_status : option string;
  dd_attestation : option string
}.

(** The two objects the handler serialises. *)
Inductive DeployBody : Type :=
| Deployed (containerId name image cluster endpoint status teeType
    attestation cpu memory : string) (gpu : bool) (ports : list Z)
    (environment : string)
| DeployError (error message hint image name : string) (memory cpu : Z).

(** The [if]/[else if] chain of the [catch] block and the [hint || ...]
    default. *)
Definition deployHint (e : HttpError) : string :=
  let hint :=
    if unreachable e
    then "DStack service is currently unavailable. Please check your network connection and API endpoint configuration."
    else if hasStatus e 401
    then "Authentication failed. Please verify your PHALA_API_KEY."
    else if hasStatus e 403
    then "Access denied. Your account may not have permissions for container deployment."
    else if hasStatus e 400
    then "Invalid deployment configuration. Please check your parameters."
    else "" in
  if (hint =? "")%string
  then "Please verify your DStack configuration and try again"
  else hint.

(** The handler: the answer and the requests sent, each with its body. *)
Definition deployContainer (cfg : Config)
    (post : HttpRequest -> DeploymentConfig -> HttpOutcome DeployData)
    (args : DeployArgs)
  : DeployBody * list (HttpRequest * DeploymentConfig) :=
  let failed (e : HttpError) :=
    DeployError "Container deployment failed" (err_message e) (deployHint e)
      (dep_image args) (dep_name args)
      (orNumber (resource args res_memory) 512)
      (orNumber (resource args res_cpu) 1) in
  let notConfigured :=
    plainError
      ("DStack API endpoint not configured. " ++
       "Please set DSTACK_API_URL environment variable to deploy containers in TEE. " ++
       "Contact Phala Network for DStack access credentials.") in
  match dstack_apiUrl cfg with
  | Some url =>
      if (url =? "")%string then (failed notConfigured, [])
      else
        let config := deploymentConfig args in
        let request :=
          mkHttpRequest (url ++ "/containers/deploy")%string (bearer cfg) in
        match post request config with
        | HttpFailed e => (failed e, [(request, config)])
        | HttpOk None =>
            (failed (plainError "Invalid response from DStack API"),
             [(request, config)])
        | HttpOk (Some d) =>
            match dd_containerId d with
            | Some id =>
                if (id =? "")%string
                then (failed (plainError "Invalid response from DStack API"),
                      [(request, config)])
                else
                  (Deployed id (dep_name args) (dep_image args)
                     (dep_clusterId args)
                     (orString (dd_endpoint d)
                        ("tee-" ++ id ++ ".phala.network"))
                     (orString (dd_status d) "deploying")
                     (dc_teeType config)
                     (orString (dd_attestation d) "pending")
                     (showZ (dc_cpu config) ++ " vCPU")
                     (showZ (dc_memory config) ++ " MB")
                     (dc_gpu config)
                     (match dep_ports args with Some p => p | None => [] end)
                     (if (0 <? Z.of_nat
                                 (List.length
                                    (match dep_env args with
                                     | Some e => e
                                     | None => []
                                     end)))
                      then "Configured" else "None"),
                   [(request, config)])
            | None =>
                (failed (plainError "Invalid response from DStack API"),
                 [(request, config)])
            end
        end
  | None => (failed notConfigured, [])
  end.


(** Sample configurations and services for the container handlers. *)
Definition noDStack : Config := mkConfig None (Some "secret").

Definition withDStack : Config :=
  mkConfig (Some "https://dstack.example") (Some "secret").

Definition twelveLines : list string :=
  ["l1"; "l2"; "l3"; "l4"; "l5"; "l6"; "l7"; "l8"; "l9"; "l10"; "l11";
   "l12"].

Definition chattyContainer : HttpRequest -> HttpOutcome ContainerData :=
  fun _ =>
    HttpOk (Some (mkContainerData (Some "web") None (Some "running") None
                    None None None (Some twelveLines))).

Definition gpuJob : DeployArgs :=
  mkDeployArgs "img:1" "job" "c1" None None
    (Some (mkResources (Some 0) None (Some true))).

Definition silentDStack
  : HttpRequest -> DeploymentConfig -> HttpOutcome DeployData :=
  fun _ _ => HttpOk (Some (mkDeployData None None (Some "running") None)).

Definition acceptingDStack
  : HttpRequest -> DeploymentConfig -> HttpOutcome DeployData :=
  fun _ _ => HttpOk (Some (mkDeployData (Some "42") None None None)).


(** * The Phala Cloud service and its tools *)

(** The fields the constructor of [PhalaCloudService] keeps:
    [config.dstack?.apiUrl || null] and the two endpoints. *)
Record CloudService : Type := mkCloudService {
  baseUrl : option string;
  vrfEndpoint : option string;
  oracleEndpoint : option string
}.

(** [`${x}`] for a value that is a string or [null]. *)
Definition template (x : option string) : string :=
  match x with
  | Some v => v
  | None => "null"
  end.

(** ** [createWorkflow] *)

(** The properties of the [workflow] argument the service reads; a missing
    property is [None]. *)
Record Workflow : Type := mkWorkflow {
  wf_name : string;
  wf_description : string;
  wf_triggers : option (list string);
  wf_actions : option (list string);
  wf_conditions : option (list string);
  wf_schedule : option string;
  wf_network : option string;
  wf_contract : option string;
  wf_event : option string;
  wf_cron : option string;
  wf_timezone : option string
}.

Record ChainConfig : Type := mkChainConfig {
  cc_network : string;
  cc_contract : option string;
  cc_event : option string
}.

Record TimeConfig : Type := mkTimeConfig {
  tc_cron : option string;
  tc_timezone : string
}.

(** [workflowTemplate], the object the service returns. *)
Record WorkflowTemplate : Type := mkWorkflowTemplate {
  wt_id : string;
  wt_name : string;
  wt_description : string;
  wt_triggers : list string;
  wt_actions : list string;
  wt_conditions : list string;
  wt_schedule : option string;
  wt_status : string;
  wt_createdAt : string;
  wt_chainConfig : option ChainConfig;
  wt_timeConfig : option TimeConfig
}.

(** [x || []]. *)
Definition orEmpty {A} (x : option (list A)) : list A :=
  match x with
  | Some l => l
  | None => []
  end.

(** [list.includes(word)] on strings. *)
Definition includesWord (l : list string) (word : string) : bool :=
  existsb (String.eqb word) l.

(** The service method.  [uuid] is the value of [crypto.randomUUID()] and
    [isoNow] that of [new Date().toISOString()].  Reading [includes] on a
    missing [triggers] throws. *)
Definition service_createWorkflow (uuid isoNow : string) (w : Workflow)
  : string + WorkflowTemplate :=
  match wf_triggers w with
  | None => inl "Cannot read properties of undefined (reading 'includes')"
  | Some triggers =>
      inr (mkWorkflowTemplate uuid (wf_name w) (wf_description w)
             triggers (orEmpty (wf_actions w)) (orEmpty (wf_conditions w))
             (wf_schedule w) "created" isoNow
             (if includesWord triggers "onchain"
              then Some (mkChainConfig (orString (wf_network w) "phala")
                           (wf_contract w) (wf_event w))
              else None)
             (if includesWord triggers "time"
              then Some (mkTimeConfig (wf_cron w)
                           (orString (wf_timezone w) "UTC"))
              else None))
  end.

(** Arguments of the [createWorkflow] tool. *)
Record WorkflowArgs : Type := mkWorkflowArgs {
  wa_name : string;
  wa_description : string;
  wa_triggers : list string;
  wa_actions : list string;
  wa_conditions : option (list string);
  wa_schedule : option string;
  wa_network : option string;
  wa_contract : option string
}.

(** The [workflow] object the tool builds: it has no [event], [cron] or
    [timezone] property. *)
Definition toolWorkflow (a : WorkflowArgs) : Workflow :=
  mkWorkflow (wa_name a) (wa_description a) (Some (wa_triggers a))
    (Some (wa_actions a)) (Some (orEmpty (wa_conditions a)))
    (wa_schedule a) (wa_network a) (wa_contract a) None None None.

(** The tool handler. *)
Definition createWorkflow (uuid isoNow : string) (a : WorkflowArgs)
  : ToolResult WorkflowTemplate :=
  match service_createWorkflow uuid isoNow (toolWorkflow a) with
  | inl msg => Text ("Error creating workflow: " ++ msg)
  | inr result => Json result
  end.

(** ** [generateVRF] *)

(** The body of the request to the VRF endpoint; the bounds of a range are
    taken to be whole numbers. *)
Record VrfRequest : Type := mkVrfRequest {
  vrf_seed : string;
  vrf_range : option (Z * Z);
  vrf_timestamp : Z
}.

(** [response.data] of the VRF endpoint; values are kept as JSON text. *)
Record VrfData : Type := mkVrfData {
  vd_value : option string;
  vd_proof : option string;
  vd_publicKey : option string;
  vd_verified : option bool
}.

(** The object the service returns. *)
Record VrfResult : Type := mkVrfResult {
  vr_randomValue : option string;
  vr_proof : option string;
  vr_publicKey : option string;
  vr_verified : option bool;
  vr_range : option (Z * Z)
}.

(** The service method.  [randomHex] is the value of
    [crypto.randomBytes(32).toString('hex')] and [now] that of
    [Date.now()].  Anything thrown inside is thrown again, wrapped. *)
Definition service_generateVRF (svc : CloudService)
    (post : string -> VrfRequest -> HttpOutcome VrfData)
    (randomHex : string) (now : Z) (seed : option string)
    (range : option (Z * Z))
  : (string + VrfResult) * list (string * VrfRequest) :=
  let url := (template (vrfEndpoint svc) ++ "/generate")%string in
  let request := mkVrfRequest (orString seed randomHex) range now in
  let wrapped (msg : string) : string + VrfResult :=
    inl ("VRF service unavailable: " ++ msg ++
         ". Configure PHALA_VRF_ENDPOINT for verifiable randomness")%string in
  match post url request with
  | HttpFailed e => (wrapped (err_message e), [(url, request)])
  | HttpOk None =>
      (wrapped "Cannot read properties of undefined (reading 'value')",
       [(url, request)])
  | HttpOk (Some d) =>
      (inr (mkVrfResult (vd_value d) (vd_proof d) (vd_publicKey d)
              (vd_verified d) range),
       [(url, request)])
  end.

(** [(min !== undefined && max !== undefined) ? { min, max } : null]. *)
Definition vrfRange (min max : option Z) : option (Z * Z) :=
  match min, max with
  | Some lo, Some hi => Some (lo, hi)
  | _, _ => None
  end.

(** The tool handler. *)
Definition generateVRF (svc : CloudService)
    (post : string -> VrfRequest -> HttpOutcome VrfData)
    (randomHex : string) (now : Z) (seed : option string)
    (min max : option Z)
  : ToolResult VrfResult * list (string * VrfRequest) :=
  match service_generateVRF svc post randomHex now seed (vrfRange min max)
  with
  | (inl msg, sent) => (Text ("Error generating VRF: " ++ msg), sent)
  | (inr result, sent) => (Json result, sent)
  end.

Definition vrfDown : string -> VrfRequest -> HttpOutcome VrfData :=
  fun _ _ => HttpFailed (plainError "connect ECONNREFUSED").

Definition vrfUp : string -> VrfRequest -> HttpOutcome VrfData :=
  fun _ _ => HttpOk (Some (mkVrfData (Some "7") (Some "0xproof")
                             (Some "0xkey") (Some true))).


(** ** [sequentialThinking] *)

(** Task texts are taken to be ASCII: [toLowerCase] folds [A]-[Z], and
    [trim] strips the ASCII white space. *)
Definition lowerChar (c : Ascii.ascii) : Ascii.ascii :=
  let n := Ascii.nat_of_ascii c in
  if (65 <=? n)%nat && (n <=? 90)%nat then Ascii.ascii_of_nat (n + 32)
  else c.

Fixpoint toLowerCase (s : string) : string :=
  match s with
  | EmptyString => EmptyString
  | String c rest => String (lowerChar c) (toLowerCase rest)
  end.

(** [s.split(' ')]. *)
Fixpoint splitSpaces (s : string) : list string :=
  match s with
  | EmptyString => [""]
  | String c rest =>
      if (Ascii.nat_of_ascii c =? 32)%nat then "" :: splitSpaces rest
      else match splitSpaces rest with
           | word :: words => String c word :: words
           | [] => [String c ""]
           end
  end.

(** Does [keyword] (in lower case) match at the head of [s], letter case
    ignored? *)
Fixpoint matchesAt (keyword s : string) : bool :=
  match keyword, s with
  | EmptyString, _ => true
  | String k keyword', String c rest =>
      Ascii.eqb k (lowerChar c) && matchesAt keyword' rest
  | String _ _, EmptyString => false
  end.

(** The length of the match of [/(?:and|then|after|before|while)/i] at the
    head of [s], if there is one. *)
Definition keywordAt (s : string) : option nat :=
  if matchesAt "and" s then Some 3%nat
  else if matchesAt "then" s then Some 4%nat
  else if matchesAt "after" s then Some 5%nat
  else if matchesAt "before" s then Some 6%nat
  else if matchesAt "while" s then Some 5%nat
  else None.

(** [s.split(/(?:and|then|after|before|while)/i)], scanning from the left;
    [skip] counts the characters of a match still to be passed over. *)
Fixpoint splitKeywords (skip : nat) (s : string) : list string :=
  match s with
  | EmptyString => [""]
  | String c rest =>
      match skip with
      | S k => splitKeywords k rest
      | O =>
          match keywordAt s with
          | Some len => "" :: splitKeywords (len - 1) rest
          | None =>
              match splitKeywords 0 rest with
              | piece :: pieces => String c piece :: pieces
              | [] => [String c ""]
              end
          end
      end
  end.

Definition isSpace (c : Ascii.ascii) : bool :=
  let n := Ascii.nat_of_ascii c in
  (n =? 32)%nat || ((9 <=? n)%nat && (n <=? 13)%nat).

Fixpoint trimStart (s : string) : string :=
  match s with
  | EmptyString => EmptyString
  | String c rest => if isSpace c then trimStart rest else s
  end.

Fixpoint trimEnd (s : string) : string :=
  match s with
  | EmptyString => EmptyString
  | String c rest =>
      match trimEnd rest with
      | EmptyString => if isSpace c then EmptyString else String c EmptyString
      | kept => String c kept
      end
  end.

(** [s.trim()]. *)
Definition trim (s : string) : string := trimEnd (trimStart s).

(** An element of [steps]. *)
Record Step : Type := mkStep {
  step : nat;
  action : string;
  dependencies : list nat;
  status : string
}.

(** The object the service returns. *)
Record Thinking : Type := mkThinking {
  th_task : string;
  th_steps : list Step;
  th_estimatedTime : nat;
  th_complexity : string
}.

(** [taskWords.length > 10 || taskWords.includes('and') || ...]. *)
Definition isComplex (task : string) : bool :=
  let taskWords := splitSpaces (toLowerCase task) in
  (10 <? List.length taskWords)%nat
  || includesWord taskWords "and"
  || includesWord taskWords "then"
  || includesWord taskWords "after".

(** [actions.forEach((action, index) => steps.push(...))], from [index]
    on. *)
Fixpoint actionSteps (index : nat) (actions : list string) : list Step :=
  match actions with
  | [] => []
  | a :: rest =>
      mkStep (index + 1) (trim a)
        (if (0 <? index)%nat then [index] else []) "pending"
      :: actionSteps (S index) rest
  end.

(** The service method; [requiresAuth] and [requiresValidation] are the
    two properties of [context] it reads. *)
Definition service_sequentialThinking (task : string)
    (requiresAuth requiresValidation : bool) : Thinking :=
  let steps0 :=
    if isComplex task then actionSteps 0 (splitKeywords 0 task)
    else [mkStep 1 task [] "pending"] in
  let steps1 :=
    if requiresAuth
    then mkStep 0 "Authenticate and verify permissions" [] "pending"
         :: steps0
    else steps0 in
  let steps2 :=
    if requiresValidation
    then steps1 ++ [mkStep (List.length steps1)
                      "Validate results and generate proof"
                      [List.length steps1 - 1]%nat "pending"]
    else steps1 in
  mkThinking task steps2 (List.length steps2 * 5)
    (if isComplex task then "complex" else "simple").

(** The tool handler: [requiresAuth || false] and
    [requiresValidation || false]; the service method throws nothing. *)
Definition sequentialThinking (task : string)
    (requiresAuth requiresValidation : option bool) : ToolResult Thinking :=
  Json (service_sequentialThinking task
          (match requiresAuth with Some b => b | None => false end)
          (match requiresValidation with Some b => b | None => false end)).

(** The dependency rule of the action steps: step 1 depends on nothing,
    step [n > 1] on step [n - 1]. *)
Definition followsPrevious (st : Step) : Prop :=
  dependencies st = if (1 <? step st)%nat then [(step st - 1)%nat] else [].


(** * [sendPHAEthereum] *)

(** [getEthereumWallet]: the key handed to [new ethers.Wallet] is the
    environment's private key with [0x] put in front unless it is there
    already. *)
Definition walletKey (privateKey : string) : string :=
  if String.prefix "0x" privateKey then privateKey
  else ("0x" ++ privateKey)%string.

(** The receipt of a mined transaction. *)
Record Receipt : Type := mkReceipt {
  rc_transactionHash : string;
  rc_blockNumber : Z;
  rc_gasUsed : Z
}.

(** A [transfer] call as it is sent: recipient, amount in base units, and
    the overrides [{ gasLimit, gasPrice }]. *)
Record Transfer : Type := mkTransfer {
  tr_to : string;
  tr_amount : Z;
  tr_gasLimit : Z;
  tr_gasPrice : Z
}.

(** The Ethereum side as one handler invocation sees it.  Each call either
    throws (the message on the left) or answers; [ethers.utils] functions
    are taken as they are. *)
Record Ethereum : Type := mkEthereum {
  (** [new ethers.Wallet(key, provider).address]. *)
  eth_wallet : string -> string + string;
  (** [phaContract.decimals()]. *)
  eth_decimals : string + Z;
  (** [ethers.utils.parseUnits(amount, decimals)]. *)
  eth_parseUnits : string -> Z -> string + Z;
  (** [ethers.utils.formatUnits(value, decimals)]. *)
  eth_formatUnits : Z -> Z -> string;
  (** [ethers.utils.formatUnits(value, "gwei")]. *)
  eth_formatGwei : Z -> string;
  (** [phaContract.balanceOf(address)]. *)
  eth_balanceOf : string -> string + Z;
  (** [phaContract.estimateGas.transfer(to, amount)]. *)
  eth_estimateGas : string -> Z -> string + Z;
  (** [wallet.provider.getGasPrice()]. *)
  eth_gasPrice : string + Z;
  (** [phaContract.transfer(...)] followed by [tx.wait()]: the send
      throws, the wait throws, or a receipt arrives. *)
  eth_transfer : Transfer -> string + (string + Receipt)
}.

(** The object the handler serialises on success, without its constant
    properties [success: true] and [network: "Ethereum"]. *)
Record SentBody : Type := mkSentBody {
  sb_from : string;
  sb_to : string;
  sb_amount : string;
  sb_transactionHash : string;
  sb_blockNumber : Z;
  sb_gasUsed : string;
  sb_gasPrice : string;
  sb_explorer : string
}.

(** [gasEstimate.mul(110).div(100)]. *)
Definition gasLimitFor (gasEstimate : Z) : Z :=
  Z.quot (gasEstimate * 110) 100.

(** The [try] block of the handler: what it returns or throws, and the
    transfers it sent.  [privateKey] is [process.env.WALLET_PRIVATE_KEY]. *)
Definition trySendPHAEthereum (eth : Ethereum) (privateKey : option string)
    (to amount : string) : (string + SentBody) * list Transfer :=
  match privateKey with
  | None => (inl "Wallet not configured for Ethereum transactions", [])
  | Some key =>
    if (key =? "")%string
    then (inl "Wallet not configured for Ethereum transactions", [])
    else
    match eth_wallet eth (walletKey key) with
    | inl msg => (inl msg, [])
    | inr address =>
    match eth_decimals eth with
    | inl msg => (inl msg, [])
    | inr decimals =>
    match eth_parseUnits eth amount decimals with
    | inl msg => (inl msg, [])
    | inr amountWei =>
    match eth_balanceOf eth address with
    | inl msg => (inl msg, [])
    | inr balance =>
    if balance <? amountWei
    then (inl ("Insufficient PHA balance. Have " ++
               eth_formatUnits eth balance decimals ++ ", need " ++
               amount)%string,
          [])
    else
    match eth_estimateGas eth to amountWei with
    | inl msg => (inl msg, [])
    | inr gasEstimate =>
    match eth_gasPrice eth with
    | inl msg => (inl msg, [])
    | inr gasPrice =>
      let transfer :=
        mkTransfer to amountWei (gasLimitFor gasEstimate) gasPrice in
      match eth_transfer eth transfer with
      | inl msg => (inl msg, [transfer])
      | inr (inl msg) => (inl msg, [transfer])
      | inr (inr receipt) =>
          (inr (mkSentBody address to (amount ++ " PHA")
                  (rc_transactionHash receipt) (rc_blockNumber receipt)
                  (showZ (rc_gasUsed receipt))
                  (eth_formatGwei eth gasPrice ++ " gwei")
                  ("https://etherscan.io/tx/"
                   ++ rc_transactionHash receipt)),
           [transfer])
      end
    end end end end end end
  end.

(** The handler. *)
Definition sendPHAEthereum (eth : Ethereum) (privateKey : option string)
    (to amount : string) : ToolResult SentBody * list Transfer :=
  match trySendPHAEthereum eth privateKey to amount with
  | (inl msg, sent) =>
      (Text ("Error sending PHA on Ethereum: " ++ msg)%string, sent)
  | (inr body, sent) => (Json body, sent)
  end.

(** A wallet with 5 tokens of 18 decimals; amounts are read as whole
    tokens. *)
Definition smallWallet : Ethereum :=
  mkEthereum (fun _ => inr "0xabc") (inr 18)
    (fun amount _ =>
       if (amount =? "7")%string then inr 7000000000000000000
       else inr 1000000000000000000)
    (fun _ _ => "5.0") (fun _ => "20.0")
    (fun _ => inr 5000000000000000000)
    (fun _ _ => inr 50001) (inr 20000000000)
    (fun _ => inr (inr (mkReceipt "0xhash" 100 48211))).

(** * Properties *)

(** ** Running the pieces of the handlers *)

Lemma initPhalaAPI_run (ch : Chain) (s : Server) :
  initPhalaAPI ch s =
    if api s then (inr tt, s, [])
    else match apiCreate ch with
         | Some msg => (inl msg, s, [])
         | None => (inr tt, mkServer true (workerCache s), [])
         end.
Proof.
  unfold initPhalaAPI, bind, getServer; simpl.
  destruct (api s); [reflexivity|].
  destruct (apiCreate ch); reflexivity.
Qed.

(** [initPhalaAPI] never touches the cache and sends nothing that the trace
    records. *)
Lemma initPhalaAPI_inv (ch : Chain) (s : Server) :
  exists r s',
    initPhalaAPI ch s = (r, s', []) /\
    workerCache s' = workerCache s /\
    (forall u, r = inr u -> api s' = true) /\
    (api s = true -> r = inr tt /\ s' = s).
Proof.
  rewrite initPhalaAPI_run.
  destruct (api s) eqn:Ha.
  - exists (inr tt), s. repeat split; auto.
  - destruct (apiCreate ch) as [msg|].
    + exists (inl msg), s. repeat split; auto; discriminate.
    + exists (inr tt), (mkServer true (workerCache s)).
      repeat split; auto; discriminate.
Qed.

Lemma refreshWorkerKeys_run (ch : Chain) (now : Z) (s : Server) :
  refreshWorkerKeys ch now s =
    match query_workers_keys ch with
    | inl msg => (inl msg, s, [EnumerateKeys])
    | inr keys =>
        (inr keys, mkServer (api s) (mkWorkerCache (Some keys) now),
         [EnumerateKeys])
    end.
Proof.
  unfold refreshWorkerKeys, bind, emit; simpl.
  destruct (query_workers_keys ch); reflexivity.
Qed.

Lemma cachedWorkerKeys_run (ch : Chain) (now : Z) (s : Server) :
  cachedWorkerKeys ch now s =
    match data (workerCache s) with
    | Some keys =>
        if now - timestamp (workerCache s) <? TTL then (inr keys, s, [])
        else refreshWorkerKeys ch now s
    | None => refreshWorkerKeys ch now s
    end.
Proof.
  unfold cachedWorkerKeys, bind, getServer; simpl.
  destruct (data (workerCache s)) as [keys|].
  - destruct (now - timestamp (workerCache s) <? TTL); simpl.
    + reflexivity.
    + destruct (refreshWorkerKeys ch now s) as [[[e|ks] s1] t1]; reflexivity.
  - destruct (refreshWorkerKeys ch now s) as [[[e|ks] s1] t1]; reflexivity.
Qed.

(** The worker-state lookup always yields a state, leaves the server alone
    and sends no worker-info probe and no enumeration. *)
Lemma lookupWorkerState_run (ch : Chain) (key : Key) (s : Server) :
  exists st tr,
    lookupWorkerState ch key s = (inr st, s, tr) /\
    probes tr = 0%nat /\ enumerations tr = 0%nat.
Proof.
  unfold lookupWorkerState.
  destruct (query_workerState ch) as [q|].
  - unfold tryCatch, await, bind, emit; simpl.
    destruct (q key) as [msg| |st]; simpl; eauto.
  - exists "Unknown", []. auto.
Qed.

(** One iteration of the loop: the [try]/[catch] around the probe always
    completes, leaves the server alone and sends exactly one worker-info
    probe. *)
Lemma tryWorker_caught (ch : Chain) (a : Args) (key : Key) (s : Server) :
  exists it tr,
    tryCatch (tryWorker ch a key) (fun _ => ret Failed) s = (inr it, s, tr) /\
    probes tr = 1%nat /\ enumerations tr = 0%nat.
Proof.
  unfold tryCatch, tryWorker, await, bind, emit; simpl.
  destruct (query_workers ch key) as [msg| |info]; simpl.
  - exists Failed, [QueryWorker key]. auto.
  - exists Skipped, [QueryWorker key]. auto.
  - destruct (lookupWorkerState_run ch key s) as (st & tr & -> & Hp & He).
    destruct (onlineFilterSkips (onlineOnly a) st); simpl.
    + exists Skipped, (QueryWorker key :: tr ++ []).
      rewrite app_nil_r. unfold probes, enumerations in *; simpl. auto.
    + destruct (teeTypeFilterSkips _ _); simpl;
        eexists; exists (QueryWorker key :: tr ++ []);
        rewrite app_nil_r; unfold probes, enumerations in *; simpl; auto.
Qed.

Lemma probes_app (t1 t2 : list Event) :
  probes (t1 ++ t2) = (probes t1 + probes t2)%nat.
Proof. unfold probes. now rewrite filter_app, length_app. Qed.

Lemma enumerations_app (t1 t2 : list Event) :
  enumerations (t1 ++ t2) = (enumerations t1 + enumerations t2)%nat.
Proof. unfold enumerations. now rewrite filter_app, length_app. Qed.

Lemma bind_inr {A B} (m : M A) (k : A -> M B) (s s1 : Server) (a : A)
    (t1 : list Event) :
  m s = (inr a, s1, t1) ->
  bind m k s = match k a s1 with (r, s2, t2) => (r, s2, t1 ++ t2) end.
Proof. intros H. unfold bind. now rewrite H. Qed.

Lemma bind_inl {A B} (m : M A) (k : A -> M B) (s s1 : Server) (e : string)
    (t1 : list Event) :
  m s = (inl e, s1, t1) ->
  bind m k s = (inl e, s1, t1).
Proof. intros H. unfold bind. now rewrite H. Qed.

(** ** The over-fetch loop *)

(** Close the goals of a loop that stops where it stands. *)
Ltac stop_here :=
  repeat split; cbn [probes enumerations filter List.length]; lia.

Section Loop.

Variable ch : Chain.
Variable a : Args.
Variable m : Z.

(** Invariant of the [for] loop, from any accumulator state: it completes
    without throwing and without touching the server, never enumerates,
    counts at least one [processedCount] step per pushed worker and at most
    one per probe, and stops at both [break] guards. *)
Lemma forWorkerKeys_inv (keys : list Key) :
  forall (workerList : list Worker) (processedCount : Z) (s : Server),
  exists workerList' processedCount' tr,
    forWorkerKeys ch a m keys workerList processedCount s
      = (inr (workerList', processedCount'), s, tr) /\
    enumerations tr = 0%nat /\
    (probes tr <= List.length keys)%nat /\
    Z.of_nat (List.length workerList') - Z.of_nat (List.length workerList)
      <= processedCount' - processedCount /\
    processedCount' - processedCount <= Z.of_nat (probes tr) /\
    Z.of_nat (List.length workerList')
      <= Z.max (Z.of_nat (List.length workerList)) (limit a) /\
    processedCount' <= Z.max processedCount m.
Proof.
  induction keys as [|key rest IH]; intros wl pc s; simpl.
  - exists wl, pc, []. unfold ret. stop_here.
  - destruct (pc >=? m) eqn:Hpc.
    { exists wl, pc, []. unfold ret. stop_here. }
    destruct (Z.of_nat (List.length wl) >=? limit a) eqn:Hwl.
    { exists wl, pc, []. unfold ret. stop_here. }
    rewrite Z.geb_leb in Hpc, Hwl.
    apply Z.leb_gt in Hpc, Hwl.
    destruct (tryWorker_caught ch a key s) as (it & t1 & Hrun & Hp1 & He1).
    rewrite (bind_inr _ _ _ _ _ _ Hrun).
    destruct it as [|w|].
    + destruct (IH wl pc s)
        as (wl' & pc' & t2 & -> & He & Hp & H1 & H2 & H3 & H4).
      exists wl', pc', (t1 ++ t2).
      rewrite enumerations_app, probes_app.
      repeat split; try lia.
    + destruct (IH (wl ++ [w]) (pc + 1) s)
        as (wl' & pc' & t2 & -> & He & Hp & H1 & H2 & H3 & H4).
      exists wl', pc', (t1 ++ t2).
      rewrite enumerations_app, probes_app.
      rewrite length_app in *; simpl in *.
      repeat split; try lia.
    + destruct (IH wl (pc + 1) s)
        as (wl' & pc' & t2 & -> & He & Hp & H1 & H2 & H3 & H4).
      exists wl', pc', (t1 ++ t2).
      rewrite enumerations_app, probes_app.
      repeat split; try lia.
Qed.

End Loop.

(** ** The handler after the cache block *)

(** What the second half of [getWorkerList] guarantees for any key
    sequence: it completes with a JSON body, leaves the server alone, never
    enumerates, and its counters are related as stated. *)
Lemma listWorkers_run (ch : Chain) (a : Args) (keys : list Key) (s : Server) :
  exists body tr,
    listWorkers ch a keys s = (inr (Json body), s, tr) /\
    enumerations tr = 0%nat /\
    (probes tr <= List.length keys)%nat /\
    totalWorkers body = List.length keys /\
    showing body = List.length (body_workers body) /\
    Z.of_nat (showing body) <= Z.max 0 (limit a) /\
    (keys = [] ->
       processed body = None /\
       message body = Some "No workers registered on the network") /\
    (keys <> [] ->
       exists p, processed body = Some p /\
                 Z.of_nat (showing body) <= p /\
                 p <= Z.of_nat (probes tr) /\
                 p <= Z.max 0 (maxToProcess a)).
Proof.
  destruct keys as [|key rest].
  - eexists; exists []. unfold listWorkers, ret.
    repeat split;
      cbn [showing body_workers totalWorkers processed message
           probes enumerations filter List.length Z.of_nat];
      try lia.
    intros H; now elim H.
  - unfold listWorkers.
    destruct (forWorkerKeys_inv ch a (maxToProcess a) (key :: rest) [] 0 s)
      as (wl & pc & tr & Hrun & He & Hp & H1 & H2 & H3 & H4).
    rewrite (bind_inr _ _ _ _ _ _ Hrun). unfold ret.
    eexists; exists (tr ++ []). rewrite app_nil_r.
    cbn [List.length Z.of_nat] in *.
    repeat split; cbn [showing body_workers totalWorkers processed];
      try assumption; try reflexivity; try lia; try congruence.
    intros _. exists pc. repeat split; lia.
Qed.

(** The handler as a whole, case by case: a failed [initPhalaAPI], a failed
    enumeration, or a listing over the keys the cache block produced. *)
Lemma getWorkerList_run (ch : Chain) (now : Z) (a : Args) (s : Server) :
  match initPhalaAPI ch s with
  | (inl msg, s1, _) =>
      getWorkerList ch now a s
        = (inr (Text ("Error getting worker list: " ++ msg)%string), s1, [])
  | (inr _, s1, _) =>
      match cachedWorkerKeys ch now s1 with
      | (inl msg, s2, t1) =>
          getWorkerList ch now a s
            = (inr (Text ("Error getting worker list: " ++ msg)%string),
               s2, t1)
      | (inr keys, s2, t1) =>
          exists body t2,
            listWorkers ch a keys s2 = (inr (Json body), s2, t2) /\
            getWorkerList ch now a s = (inr (Json body), s2, t1 ++ t2)
      end
  end.
Proof.
  unfold getWorkerList, tryCatch, bind.
  destruct (initPhalaAPI_inv ch s) as (r & s1 & -> & _ & _ & _).
  destruct r as [msg|[]]; [reflexivity|].
  destruct (cachedWorkerKeys ch now s1) as [[[msg|keys] s2] t1]; simpl.
  - now rewrite app_nil_r.
  - destruct (listWorkers_run ch a keys s2) as (body & t2 & Hrun & _).
    exists body, t2. now rewrite Hrun.
Qed.

(** ** The cache block inside the handler *)

(** A call that finds a valid entry: nothing is enumerated, the server is
    left as it was, and the answer is the listing over the cached keys. *)
Lemma getWorkerList_hit (ch : Chain) (now : Z) (a : Args) (s : Server)
    (keys : list Key) :
  api s = true ->
  data (workerCache s) = Some keys ->
  now - timestamp (workerCache s) < TTL ->
  cachedWorkerKeys ch now s = (inr keys, s, []) /\
  exists body tr,
    listWorkers ch a keys s = (inr (Json body), s, tr) /\
    getWorkerList ch now a s = (inr (Json body), s, tr) /\
    enumerations tr = 0%nat.
Proof.
  intros Hapi Hdata Hage.
  assert (Hkeys : cachedWorkerKeys ch now s = (inr keys, s, [])).
  { rewrite cachedWorkerKeys_run, Hdata.
    apply Z.ltb_lt in Hage. now rewrite Hage. }
  split; [exact Hkeys|].
  pose proof (getWorkerList_run ch now a s) as Hrun.
  rewrite initPhalaAPI_run, Hapi, Hkeys in Hrun.
  destruct Hrun as (body & t2 & Hlist & Hget).
  destruct (listWorkers_run ch a keys s) as (body' & t2' & Hlist' & He & _).
  rewrite Hlist in Hlist'. inversion Hlist'; subst body' t2'.
  exists body, t2. auto.
Qed.

(** A call that finds no valid entry: the registry is enumerated exactly
    once; a successful enumeration overwrites the entry, a failed one leaves
    it and the handler answers with the error text. *)
Lemma getWorkerList_miss (ch : Chain) (now : Z) (a : Args) (s : Server) :
  api s = true \/ apiCreate ch = None ->
  data (workerCache s) = None \/ TTL <= now - timestamp (workerCache s) ->
  let s1 := mkServer true (workerCache s) in
  match query_workers_keys ch with
  | inl msg =>
      cachedWorkerKeys ch now s1 = (inl msg, s1, [EnumerateKeys]) /\
      getWorkerList ch now a s
        = (inr (Text ("Error getting worker list: " ++ msg)%string), s1,
           [EnumerateKeys])
  | inr keys =>
      let s2 := mkServer true (mkWorkerCache (Some keys) now) in
      cachedWorkerKeys ch now s1 = (inr keys, s2, [EnumerateKeys]) /\
      exists body tr,
        listWorkers ch a keys s2 = (inr (Json body), s2, tr) /\
        getWorkerList ch now a s = (inr (Json body), s2, EnumerateKeys :: tr) /\
        enumerations (EnumerateKeys :: tr) = 1%nat
  end.
Proof.
  intros Hinit Hstale s1.
  assert (Hi : initPhalaAPI ch s = (inr tt, s1, [])).
  { rewrite initPhalaAPI_run. subst s1.
    destruct s as [b c]; simpl in *.
    destruct b; [reflexivity|].
    destruct Hinit as [H|H]; [discriminate|]. now rewrite H. }
  assert (Hk : cachedWorkerKeys ch now s1 = refreshWorkerKeys ch now s1).
  { rewrite cachedWorkerKeys_run. subst s1; simpl.
    destruct (data (workerCache s)) as [ks|]; [|reflexivity].
    destruct Hstale as [H|H]; [discriminate|].
    apply Z.ltb_ge in H. now rewrite H. }
  pose proof (getWorkerList_run ch now a s) as Hrun.
  rewrite Hi, Hk, refreshWorkerKeys_run in Hrun.
  rewrite Hk, refreshWorkerKeys_run.
  destruct (query_workers_keys ch) as [msg|keys]; simpl in *.
  - split; [reflexivity|exact Hrun].
  - split; [reflexivity|].
    destruct Hrun as (body & t2 & Hlist & Hget).
    exists body, t2. repeat split; try assumption.
    destruct (listWorkers_run ch a keys
                (mkServer true (mkWorkerCache (Some keys) now)))
      as (body' & t2' & Hlist' & He & _).
    rewrite Hlist in Hlist'. inversion Hlist'; subst.
    unfold enumerations in *; simpl. now rewrite He.
Qed.

(** A call that did enumerate, against a registry that answered [keys],
    leaves exactly the entry [{ data: keys, timestamp: now }]. *)
Lemma getWorkerList_enumerated (ch : Chain) (now : Z) (a : Args)
    (s s' : Server) (r : string + ToolResult WorkerListBody)
    (tr : list Event) (keys : list Key) :
  getWorkerList ch now a s = (r, s', tr) ->
  enumerations tr <> 0%nat ->
  query_workers_keys ch = inr keys ->
  s' = mkServer true (mkWorkerCache (Some keys) now).
Proof.
  intros Hget Hen Hq.
  pose proof (getWorkerList_run ch now a s) as Hrun.
  rewrite initPhalaAPI_run in Hrun.
  destruct (api s) eqn:Hapi.
  - destruct (data (workerCache s)) as [ks|] eqn:Hd.
    + destruct (Z.lt_ge_cases (now - timestamp (workerCache s)) TTL) as [Hlt|Hge].
      * destruct (getWorkerList_hit ch now a s ks Hapi Hd Hlt)
          as (_ & body & tr' & _ & Hget' & He).
        rewrite Hget in Hget'. inversion Hget'; subst. contradiction.
      * pose proof (getWorkerList_miss ch now a s (or_introl Hapi)
                      (or_intror Hge)) as Hm.
        rewrite Hq in Hm. simpl in Hm.
        destruct Hm as (_ & body & tr' & _ & Hget' & _).
        rewrite Hget in Hget'. now inversion Hget'.
    + pose proof (getWorkerList_miss ch now a s (or_introl Hapi)
                    (or_introl Hd)) as Hm.
      rewrite Hq in Hm. simpl in Hm.
      destruct Hm as (_ & body & tr' & _ & Hget' & _).
      rewrite Hget in Hget'. now inversion Hget'.
  - destruct (apiCreate ch) as [msg|] eqn:Hc.
    + rewrite Hget in Hrun. inversion Hrun; subst. now elim Hen.
    + destruct (data (workerCache s)) as [ks|] eqn:Hd.
      * destruct (Z.lt_ge_cases (now - timestamp (workerCache s)) TTL)
          as [Hlt|Hge].
        -- destruct (getWorkerList_hit ch now a (mkServer true (workerCache s))
                       ks eq_refl Hd Hlt) as (Hkeys & body & tr' & Hl & _ & He).
           simpl in Hrun. rewrite Hkeys in Hrun.
           destruct Hrun as (body' & t2 & Hl' & Hget').
           rewrite Hl in Hl'. inversion Hl'; subst.
           rewrite Hget in Hget'. inversion Hget'; subst. contradiction.
        -- pose proof (getWorkerList_miss ch now a s (or_intror Hc)
                         (or_intror Hge)) as Hm.
           rewrite Hq in Hm. simpl in Hm.
           destruct Hm as (_ & body & tr' & _ & Hget' & _).
           rewrite Hget in Hget'. now inversion Hget'.
      * pose proof (getWorkerList_miss ch now a s (or_intror Hc)
                      (or_introl Hd)) as Hm.
        rewrite Hq in Hm. simpl in Hm.
        destruct Hm as (_ & body & tr' & _ & Hget' & _).
        rewrite Hget in Hget'. now inversion Hget'.
Qed.

(** After a successful answer the cache holds the key sequence the answer
    was computed from. *)
Lemma getWorkerList_keys (ch : Chain) (now : Z) (a : Args) (s s' : Server)
    (body : WorkerListBody) (tr : list Event) :
  getWorkerList ch now a s = (inr (Json body), s', tr) ->
  exists keys t1 t2,
    data (workerCache s') = Some keys /\
    listWorkers ch a keys s' = (inr (Json body), s', t2) /\
    tr = t1 ++ t2.
Proof.
  intros Hget.
  pose proof (getWorkerList_run ch now a s) as Hrun.
  destruct (initPhalaAPI ch s) as [[[msg|u] s1] t0].
  - rewrite Hget in Hrun. discriminate.
  - pose proof (cachedWorkerKeys_run ch now s1) as Hk.
    destruct (cachedWorkerKeys ch now s1) as [[[msg|keys] s2] t1].
    + rewrite Hget in Hrun. discriminate.
    + destruct Hrun as (body' & t2 & Hlist & Hget').
      rewrite Hget in Hget'. inversion Hget'; subst.
      exists keys, t1, t2. repeat split; auto.
      rewrite refreshWorkerKeys_run in Hk.
      destruct (data (workerCache s1)) as [ks|] eqn:Hd.
      * destruct (now - timestamp (workerCache s1) <? TTL).
        -- inversion Hk; subst. exact Hd.
        -- destruct (query_workers_keys ch); inversion Hk; subst.
           reflexivity.
      * destruct (query_workers_keys ch); inversion Hk; subst. reflexivity.
Qed.

(** How a call moves the server state, by the way the cache block went. *)
Lemma getWorkerList_state (ch : Chain) (now : Z) (a : Args) (s s' : Server)
    (r : string + ToolResult WorkerListBody) (tr : list Event) :
  getWorkerList ch now a s = (r, s', tr) ->
  (api s = false /\ s' = s /\ tr = [] /\
   exists msg, apiCreate ch = Some msg /\
     r = inr (Text ("Error getting worker list: " ++ msg)%string)) \/
  (api s' = true /\ workerCache s' = workerCache s /\
   enumerations tr = 0%nat /\ exists body, r = inr (Json body)) \/
  (api s' = true /\ workerCache s' = workerCache s /\
   tr = [EnumerateKeys] /\
   exists msg, query_workers_keys ch = inl msg /\
     r = inr (Text ("Error getting worker list: " ++ msg)%string)) \/
  (api s' = true /\ enumerations tr = 1%nat /\
   exists keys body,
     query_workers_keys ch = inr keys /\
     workerCache s' = mkWorkerCache (Some keys) now /\
     r = inr (Json body)).
Proof.
  intros Hget.
  destruct (api s) eqn:Hapi; [|destruct (apiCreate ch) as [msg|] eqn:Hc].
  - right. revert Hget. destruct s as [b c]; simpl in Hapi; subst b.
    intros Hget.
    destruct (data c) as [ks|] eqn:Hd;
      [destruct (Z.lt_ge_cases (now - timestamp c) TTL) as [Hlt|Hge]|].
    + left.
      destruct (getWorkerList_hit ch now a (mkServer true c) ks eq_refl Hd Hlt)
        as (_ & body & tr' & _ & Hget' & He).
      rewrite Hget in Hget'. inversion Hget'; subst. simpl. eauto 10.
    + right.
      pose proof (getWorkerList_miss ch now a (mkServer true c)
                    (or_introl eq_refl) (or_intror Hge)) as Hm.
      simpl in Hm.
      destruct (query_workers_keys ch) as [msg|keys].
      * left. destruct Hm as (_ & Hget').
        rewrite Hget in Hget'. inversion Hget'; subst. simpl. eauto 10.
      * right. destruct Hm as (_ & body & tr' & _ & Hget' & He).
        rewrite Hget in Hget'. inversion Hget'; subst. simpl.
        repeat split; eauto 10.
    + right.
      pose proof (getWorkerList_miss ch now a (mkServer true c)
                    (or_introl eq_refl) (or_introl Hd)) as Hm.
      simpl in Hm.
      destruct (query_workers_keys ch) as [msg|keys].
      * left. destruct Hm as (_ & Hget').
        rewrite Hget in Hget'. inversion Hget'; subst. simpl. eauto 10.
      * right. destruct Hm as (_ & body & tr' & _ & Hget' & He).
        rewrite Hget in Hget'. inversion Hget'; subst. simpl.
        repeat split; eauto 10.
  - left. pose proof (getWorkerList_run ch now a s) as Hrun.
    rewrite initPhalaAPI_run, Hapi, Hc, Hget in Hrun.
    inversion Hrun; subst. repeat split; eauto 10.
  - right.
    destruct (data (workerCache s)) as [ks|] eqn:Hd;
      [destruct (Z.lt_ge_cases (now - timestamp (workerCache s)) TTL)
         as [Hlt|Hge]|].
    + left.
      pose proof (getWorkerList_run ch now a s) as Hrun.
      rewrite initPhalaAPI_run, Hapi, Hc in Hrun.
      destruct (getWorkerList_hit ch now a (mkServer true (workerCache s))
                  ks eq_refl Hd Hlt) as (Hkeys & body & tr' & Hl & _ & He).
      rewrite Hkeys in Hrun. destruct Hrun as (body' & t2 & Hl' & Hget').
      rewrite Hl in Hl'. inversion Hl'; subst.
      rewrite Hget in Hget'. inversion Hget'; subst. simpl. eauto 10.
    + right.
      pose proof (getWorkerList_miss ch now a s (or_intror Hc)
                    (or_intror Hge)) as Hm.
      simpl in Hm.
      destruct (query_workers_keys ch) as [msg|keys].
      * left. destruct Hm as (_ & Hget').
        rewrite Hget in Hget'. inversion Hget'; subst. simpl. eauto 10.
      * right. destruct Hm as (_ & body & tr' & _ & Hget' & He).
        rewrite Hget in Hget'. inversion Hget'; subst. simpl.
        repeat split; eauto 10.
    + right.
      pose proof (getWorkerList_miss ch now a s (or_intror Hc)
                    (or_introl Hd)) as Hm.
      simpl in Hm.
      destruct (query_workers_keys ch) as [msg|keys].
      * left. destruct Hm as (_ & Hget').
        rewrite Hget in Hget'. inversion Hget'; subst. simpl. eauto 10.
      * right. destruct Hm as (_ & body & tr' & _ & Hget' & He).
        rewrite Hget in Hget'. inversion Hget'; subst. simpl.
        repeat split; eauto 10.
Qed.

(** * The claims *)

(** ** Registry cache *)

(** C1.  Take a [getWorkerList] call at time [t1] that enumerated the
    registry and got [keys].  It leaves the entry [(keys, t1)].  A second
    call at a time [t2] with [t2 - t1 < TTL] (60000 ms) reads the identical
    key sequence from the cache, sends no enumeration, leaves the entry
    untouched and answers with the listing over [keys].  A second call with
    [t2 - t1 >= TTL] enumerates exactly once, and when the registry answers
    [keys'] the entry becomes [(keys', t2)]. *)
Theorem C1_cache_window_and_expiry :
  forall (ch1 ch2 : Chain) (t1 t2 : Z) (a1 a2 : Args) (s0 s1 : Server)
         (r1 : string + ToolResult WorkerListBody) (tr1 : list Event)
         (keys : list Key),
    getWorkerList ch1 t1 a1 s0 = (r1, s1, tr1) ->
    enumerations tr1 <> 0%nat ->
    query_workers_keys ch1 = inr keys ->
    workerCache s1 = mkWorkerCache (Some keys) t1 /\
    (t2 - t1 < TTL ->
       cachedWorkerKeys ch2 t2 s1 = (inr keys, s1, []) /\
       exists body tr2,
         listWorkers ch2 a2 keys s1 = (inr (Json body), s1, tr2) /\
         getWorkerList ch2 t2 a2 s1 = (inr (Json body), s1, tr2) /\
         enumerations tr2 = 0%nat) /\
    (TTL <= t2 - t1 ->
       exists r2 s2 tr2,
         getWorkerList ch2 t2 a2 s1 = (r2, s2, tr2) /\
         enumerations tr2 = 1%nat /\
         forall keys',
           query_workers_keys ch2 = inr keys' ->
           cachedWorkerKeys ch2 t2 s1
             = (inr keys', s2, [EnumerateKeys]) /\
           workerCache s2 = mkWorkerCache (Some keys') t2).
Proof.
  intros ch1 ch2 t1 t2 a1 a2 s0 s1 r1 tr1 keys Hget Hen Hq.
  pose proof (getWorkerList_enumerated _ _ _ _ _ _ _ _ Hget Hen Hq) as ->.
  split; [reflexivity|]. split.
  - intros Hlt.
    apply getWorkerList_hit; simpl; auto.
  - intros Hge.
    pose proof (getWorkerList_miss ch2 t2 a2
                  (mkServer true (mkWorkerCache (Some keys) t1))
                  (or_introl eq_refl) (or_intror Hge)) as Hm.
    simpl in Hm.
    destruct (query_workers_keys ch2) as [msg|keys'] eqn:Hq2.
    + destruct Hm as (_ & Hget2).
      eexists _, _, _. split; [exact Hget2|].
      split; [reflexivity|]. intros keys' H; discriminate.
    + destruct Hm as (Hkeys & body & tr & _ & Hget2 & He).
      eexists _, _, _. split; [exact Hget2|].
      split; [exact He|].
      intros k H. inversion H; subst k. split; [exact Hkeys|reflexivity].
Qed.

(** C1, on a run: a first call at time 1000 against five ready workers,
    then a second call 59999 ms later against a registry that has gone
    away. *)
Lemma C1_cache_window_and_expiry_witness :
  cachedWorkerKeys unreachableRegistry 60999
    (mkServer true
       (mkWorkerCache (Some ["0x01"; "0x02"; "0x03"; "0x04"; "0x05"]) 1000))
  = (inr ["0x01"; "0x02"; "0x03"; "0x04"; "0x05"],
     mkServer true
       (mkWorkerCache (Some ["0x01"; "0x02"; "0x03"; "0x04"; "0x05"]) 1000),
     []).
Proof.
  refine (proj1 (proj1 (proj2
    (C1_cache_window_and_expiry readyRegistry unreachableRegistry 1000 60999
       defaultArgs defaultArgs initialServer _ _ _ _ eq_refl _ eq_refl)) _)).
  - vm_compute. discriminate.
  - vm_compute. reflexivity.
Defined.

(** C6, as stated, fails.  The server holds a stale entry (enumerated at
    time 0, read at time 60000) and the enumeration fails: the handler
    answers with the error text and serves no listing from the stale
    entry. *)
Lemma C6_stale_entry_not_served :
  ~ (forall (ch : Chain) (now : Z) (a : Args) (s : Server) (keys : list Key)
            (msg : string),
       api s = true ->
       data (workerCache s) = Some keys ->
       TTL <= now - timestamp (workerCache s) ->
       query_workers_keys ch = inl msg ->
       exists body s' tr,
         getWorkerList ch now a s = (inr (Json body), s', tr)).
Proof.
  intros H.
  destruct (H unreachableRegistry 60000 defaultArgs staleServer ["0xaa"]
              "RPC down" eq_refl eq_refl) as (body & s' & tr & Hget).
  - vm_compute. discriminate.
  - reflexivity.
  - vm_compute in Hget. discriminate.
Qed.

(** C6, amended.  When no valid entry is at hand (none at all, or one whose
    TTL has expired) and the enumeration fails with message [msg], the
    handler answers ["Error getting worker list: " ++ msg] whether or not an
    earlier entry exists; the entry itself is left as it was. *)
Theorem C6_enumeration_failure_is_reported :
  forall (ch : Chain) (now : Z) (a : Args) (s : Server) (msg : string),
    api s = true \/ apiCreate ch = None ->
    data (workerCache s) = None \/ TTL <= now - timestamp (workerCache s) ->
    query_workers_keys ch = inl msg ->
    getWorkerList ch now a s
      = (inr (Text ("Error getting worker list: " ++ msg)%string),
         mkServer true (workerCache s), [EnumerateKeys]).
Proof.
  intros ch now a s msg Hinit Hstale Hq.
  pose proof (getWorkerList_miss ch now a s Hinit Hstale) as Hm.
  rewrite Hq in Hm. simpl in Hm. apply Hm.
Qed.

Lemma C6_enumeration_failure_is_reported_witness :
  getWorkerList unreachableRegistry 60000 defaultArgs staleServer
    = (inr (Text "Error getting worker list: RPC down"), staleServer,
       [EnumerateKeys]).
Proof.
  apply (C6_enumeration_failure_is_reported unreachableRegistry 60000
           defaultArgs staleServer "RPC down").
  - left. reflexivity.
  - right. vm_compute. discriminate.
  - reflexivity.
Defined.

(** ** Over-fetch loop and counters *)

(** Inversion of a successful answer: it is the listing over the keys the
    cache block produced. *)
Lemma getWorkerList_Json (ch : Chain) (now : Z) (a : Args) (s s' : Server)
    (body : WorkerListBody) (tr : list Event) :
  getWorkerList ch now a s = (inr (Json body), s', tr) ->
  exists keys t1 t2,
    listWorkers ch a keys s' = (inr (Json body), s', t2) /\
    tr = t1 ++ t2.
Proof.
  intros Hget.
  pose proof (getWorkerList_run ch now a s) as Hrun.
  destruct (initPhalaAPI ch s) as [[[msg|u] s1] t0].
  - rewrite Hget in Hrun. discriminate.
  - destruct (cachedWorkerKeys ch now s1) as [[[msg|keys] s2] t1].
    + rewrite Hget in Hrun. discriminate.
    + destruct Hrun as (body' & t2 & Hlist & Hget').
      rewrite Hget in Hget'. inversion Hget'; subst.
      exists keys, t1, t2. auto.
Qed.

(** The reported [processed] counter stays inside the over-fetch window
    for a non-negative limit. *)
Lemma processed_within_window (ch : Chain) (now : Z) (a : Args)
    (s s' : Server) (body : WorkerListBody) (tr : list Event) (p : Z) :
  0 <= limit a ->
  getWorkerList ch now a s = (inr (Json body), s', tr) ->
  processed body = Some p ->
  p <= Z.min (limit a * 3) 30 /\ p <= Z.of_nat (probes tr).
Proof.
  intros Hlim Hget Hp.
  destruct (getWorkerList_Json _ _ _ _ _ _ _ Hget)
    as (keys & t1 & t2 & Hlist & ->).
  destruct (listWorkers_run ch a keys s')
    as (body' & t2' & Hlist' & _ & _ & _ & _ & _ & Hempty & Hfull).
  rewrite Hlist in Hlist'. inversion Hlist'; subst body' t2'.
  destruct keys as [|k rest].
  - destruct (Hempty eq_refl) as (Hnone & _). congruence.
  - destruct Hfull as (p' & Hp' & _ & Hprobes & Hmax); [discriminate|].
    rewrite Hp in Hp'. inversion Hp'; subst p'.
    rewrite probes_app. unfold maxToProcess in Hmax. lia.
Qed.

(** C2, on the code.  With [limit = 1] the window is [min(1 * 3, 30) = 3],
    yet against five registered workers that are all filtered out by
    [onlineOnly] the loop probes all five keys and reports [processed = 0]:
    a [continue] leaves the iteration before [processedCount++], so the
    window guard never sees the keys that were probed and skipped. *)
Theorem C2_probes_exceed_window :
  exists body s' tr,
    getWorkerList unresponsiveRegistry 0 (mkArgs 1 true None) initialServer
      = (inr (Json body), s', tr) /\
    maxToProcess (mkArgs 1 true None) = 3 /\
    probes tr = 5%nat /\
    processed body = Some 0 /\
    showing body = 0%nat.
Proof.
  eexists _, _, _. split; [vm_compute; reflexivity|].
  repeat split.
Qed.

(** C3.  For a limit [N >= 0], a successful answer holds at most [N]
    records, [showing] is the number of records, and a reported [processed]
    counter is at least [showing]. *)
Theorem C3_shown_within_limit_and_processed :
  forall (ch : Chain) (now : Z) (a : Args) (s s' : Server)
         (body : WorkerListBody) (tr : list Event),
    0 <= limit a ->
    getWorkerList ch now a s = (inr (Json body), s', tr) ->
    showing body = List.length (body_workers body) /\
    Z.of_nat (List.length (body_workers body)) <= limit a /\
    (forall p, processed body = Some p -> Z.of_nat (showing body) <= p).
Proof.
  intros ch now a s s' body tr Hlim Hget.
  destruct (getWorkerList_Json _ _ _ _ _ _ _ Hget)
    as (keys & t1 & t2 & Hlist & ->).
  destruct (listWorkers_run ch a keys s')
    as (body' & t2' & Hlist' & _ & _ & _ & Hshow & Hle & Hempty & Hfull).
  rewrite Hlist in Hlist'. inversion Hlist'; subst body' t2'.
  split; [exact Hshow|]. split; [rewrite <- Hshow; lia|].
  intros p Hp.
  destruct keys as [|k rest].
  - destruct (Hempty eq_refl) as (Hnone & _). congruence.
  - destruct Hfull as (p' & Hp' & Hsp & _); [discriminate|].
    congruence.
Qed.

Lemma C3_shown_within_limit_and_processed_witness :
  exists body s' tr,
    getWorkerList readyRegistry 0 (mkArgs 3 false None) initialServer
      = (inr (Json body), s', tr) /\
    showing body = List.length (body_workers body) /\
    Z.of_nat (List.length (body_workers body)) <= 3 /\
    (forall p, processed body = Some p -> Z.of_nat (showing body) <= p).
Proof.
  eexists _, _, _. split; [vm_compute; reflexivity|].
  eapply (C3_shown_within_limit_and_processed readyRegistry 0
            (mkArgs 3 false None) initialServer).
  - vm_compute. discriminate.
  - vm_compute. reflexivity.
Defined.

(** C9, as stated, fails.  Against a registry without workers the handler
    returns early with a body that has [totalWorkers], [showing] and a
    [message], and no [processed] counter. *)
Lemma C9_empty_registry_reports_no_processed :
  ~ (forall (ch : Chain) (now : Z) (a : Args) (s s' : Server)
            (body : WorkerListBody) (tr : list Event),
       getWorkerList ch now a s = (inr (Json body), s', tr) ->
       exists p, processed body = Some p).
Proof.
  intros H.
  edestruct (H emptyRegistry 0 defaultArgs initialServer) as (p & Hp).
  - vm_compute. reflexivity.
  - vm_compute in Hp. discriminate.
Qed.

(** C9, amended.  Every successful answer reports [showing], the number of
    records returned, and [totalWorkers], the length of the key sequence it
    was computed from: the sequence the cache holds after the call, which
    is the cached one when the call did not enumerate and the registry's
    answer when it did.  The answer reports [processed] exactly when that
    key sequence is non-empty; over an empty key sequence it reports
    [totalWorkers = 0], [showing = 0] and the message that no workers are
    registered, and no [processed]. *)
Theorem C9_counters_reported :
  forall (ch : Chain) (now : Z) (a : Args) (s s' : Server)
         (body : WorkerListBody) (tr : list Event),
    getWorkerList ch now a s = (inr (Json body), s', tr) ->
    exists keys,
      data (workerCache s') = Some keys /\
      (enumerations tr = 0%nat -> data (workerCache s) = Some keys) /\
      (enumerations tr <> 0%nat -> query_workers_keys ch = inr keys) /\
      totalWorkers body = List.length keys /\
      showing body = List.length (body_workers body) /\
      (keys <> [] ->
         exists p, processed body = Some p /\ message body = None) /\
      (keys = [] ->
         processed body = None /\ showing body = 0%nat /\
         message body = Some "No workers registered on the network").
Proof.
  intros ch now a s s' body tr Hget.
  destruct (getWorkerList_keys _ _ _ _ _ _ _ Hget)
    as (keys & t1 & t2 & Hd & Hlist & _).
  exists keys. split; [exact Hd|].
  split; [|split].
  - intros He.
    destruct (getWorkerList_state _ _ _ _ _ _ _ Hget)
      as [(_ & _ & _ & msg & _ & Hr)
         |[(_ & Hc & _)
          |[(_ & _ & _ & msg & _ & Hr)
           |(_ & He1 & _)]]];
      try discriminate.
    + now rewrite <- Hc.
    + rewrite He in He1. discriminate.
  - intros He.
    destruct (getWorkerList_state _ _ _ _ _ _ _ Hget)
      as [(_ & _ & _ & msg & _ & Hr)
         |[(_ & _ & He0 & _)
          |[(_ & _ & _ & msg & _ & Hr)
           |(_ & _ & keys' & body' & Hq & Hc & _)]]];
      try discriminate.
    + contradiction.
    + rewrite Hc in Hd. simpl in Hd. inversion Hd; subst. exact Hq.
  - destruct keys as [|k rest]; unfold listWorkers in Hlist.
    + inversion Hlist; subst; simpl.
      repeat split; auto. intros H; now elim H.
    + destruct (forWorkerKeys_inv ch a (maxToProcess a) (k :: rest) [] 0 s')
        as (wl & pc & t & Hrun & _).
      rewrite (bind_inr _ _ _ _ _ _ Hrun) in Hlist.
      inversion Hlist; subst; simpl.
      repeat split; auto; try discriminate.
      intros _. exists pc. auto.
Qed.

(** C9, on a run over the five keys of the registry: [processed] is
    reported. *)
Lemma C9_counters_reported_witness :
  exists body s' tr keys p,
    getWorkerList readyRegistry 0 (mkArgs 3 false None) initialServer
      = (inr (Json body), s', tr) /\
    query_workers_keys readyRegistry = inr keys /\
    totalWorkers body = 5%nat /\
    processed body = Some p.
Proof.
  destruct (C9_counters_reported readyRegistry 0 (mkArgs 3 false None)
              initialServer _ _ _ eq_refl)
    as (keys & Hd & _ & Hq & Ht & _ & Hp & _).
  assert (Hk : keys = ["0x01"; "0x02"; "0x03"; "0x04"; "0x05"]).
  { simpl in Hd. now inversion Hd. }
  destruct Hp as (p & Hp & _); [rewrite Hk; discriminate|].
  eexists _, _, _, keys, p. split; [reflexivity|].
  split; [apply Hq; vm_compute; discriminate|].
  split; [rewrite Ht, Hk; reflexivity|exact Hp].
Defined.

(** ** Classifier *)

Lemma strictEq_true (x : option string) (lit : string) :
  strictEq x lit = true <-> x = Some lit.
Proof.
  destruct x as [v|]; simpl.
  - rewrite String.eqb_eq. split; congruence.
  - split; discriminate.
Qed.

Lemma includes_true (features : list Z) (n : Z) :
  includes features n = true <-> In n features.
Proof.
  unfold includes. rewrite existsb_exists. split.
  - intros (x & Hin & Heq). apply Z.eqb_eq in Heq. now subst.
  - intros Hin. exists n. split; [assumption|apply Z.eqb_refl].
Qed.

(** Turn the boolean tests of the classifier into propositions. *)
Ltac reflect_tests :=
  repeat match goal with
  | H : strictEq _ _ = true |- _ => apply strictEq_true in H
  | H : includes _ _ = true |- _ => apply includes_true in H
  | H : strictEq ?x ?l = false |- _ =>
      assert (x <> Some l)
        by (intros Hc; apply strictEq_true in Hc; congruence);
      clear H
  | H : includes ?f ?n = false |- _ =>
      assert (~ In n f)
        by (intros Hc; apply includes_true in Hc; congruence);
      clear H
  end.

(** C4, as stated, fails.  A worker without an attestation method whose
    features contain 1 is classified [Intel SGX] by the handler and
    [Unknown] by the table of the claim. *)
Lemma C4_feature_flag_one_is_sgx :
  ~ (forall (attestationMethod : option string) (features : list Z),
       detectedTeeType attestationMethod features
         = classify_table attestationMethod features).
Proof.
  intros H. specialize (H None [1]). vm_compute in H. discriminate.
Qed.

(** C4, amended.  [detectedTeeType] is a function of the pair
    (attestation method, features) with this first-match-wins table:
    method [Ias] or feature 1 gives [Intel SGX]; else method [Dcap] or
    feature 2 gives [Intel TDX]; else feature 3 gives [AMD SEV]; else
    feature 4 gives [NVIDIA Confidential Computing]; else [Unknown].  It
    agrees with the table of the claim on every input whose features
    contain neither 1 nor 2, so method [Ias] with features {3, 4} gives
    [Intel SGX]. *)
Theorem C4_classifier_table :
  forall (m : option string) (f : list Z),
    (m = Some "Ias" \/ In 1 f -> detectedTeeType m f = "Intel SGX") /\
    (m <> Some "Ias" -> ~ In 1 f -> m = Some "Dcap" \/ In 2 f ->
       detectedTeeType m f = "Intel TDX") /\
    (m <> Some "Ias" -> ~ In 1 f -> m <> Some "Dcap" -> ~ In 2 f ->
       In 3 f -> detectedTeeType m f = "AMD SEV") /\
    (m <> Some "Ias" -> ~ In 1 f -> m <> Some "Dcap" -> ~ In 2 f ->
       ~ In 3 f -> In 4 f ->
       detectedTeeType m f = "NVIDIA Confidential Computing") /\
    (m <> Some "Ias" -> ~ In 1 f -> m <> Some "Dcap" -> ~ In 2 f ->
       ~ In 3 f -> ~ In 4 f -> detectedTeeType m f = "Unknown") /\
    (~ In 1 f -> ~ In 2 f -> detectedTeeType m f = classify_table m f) /\
    detectedTeeType (Some "Ias") [3; 4] = "Intel SGX".
Proof.
  intros m f. unfold detectedTeeType, classify_table.
  destruct (strictEq m "Ias") eqn:Hias;
    destruct (includes f 1) eqn:H1;
    destruct (strictEq m "Dcap") eqn:Hdcap;
    destruct (includes f 2) eqn:H2;
    destruct (includes f 3) eqn:H3;
    destruct (includes f 4) eqn:H4;
    reflect_tests; simpl;
    repeat split; intros; try reflexivity; try tauto; try congruence.
Qed.

Lemma C4_classifier_table_witness :
  detectedTeeType (Some "Dcap") [1; 2] = "Intel SGX" /\
  detectedTeeType None [5; 4] = classify_table None [5; 4].
Proof.
  split.
  - apply (proj1 (C4_classifier_table (Some "Dcap") [1; 2])).
    right. simpl. auto.
  - apply (proj1 (proj2 (proj2 (proj2 (proj2 (proj2
             (C4_classifier_table None [5; 4]))))))).
    + simpl. intros [H|[H|H]]; try discriminate; exact H.
    + simpl. intros [H|[H|H]]; try discriminate; exact H.
Defined.

(** ** Filter *)

Lemma onlineFilter_reference (onlineOnly : bool) (state : string) :
  negb (onlineFilterSkips onlineOnly state)
  = if onlineOnly
    then (state =? "Ready")%string || (state =? "WorkerIdle")%string
    else true.
Proof.
  unfold onlineFilterSkips.
  destruct onlineOnly, (state =? "Ready")%string,
    (state =? "WorkerIdle")%string; reflexivity.
Qed.

Lemma teeTypeFilter_reference (teeType : option string) (detected : string) :
  teeType <> Some "" ->
  negb (teeTypeFilterSkips teeType detected)
  = match teeType with
    | Some c => (detected =? c)%string || (detected =? "Unknown")%string
    | None => true
    end.
Proof.
  intros Hne. unfold teeTypeFilterSkips, truthy.
  destruct teeType as [c|]; [|reflexivity].
  destruct (c =? "")%string eqn:Hc.
  - apply String.eqb_eq in Hc. congruence.
  - destruct (detected =? c)%string, (detected =? "Unknown")%string;
      reflexivity.
Qed.

(** In the loop, a worker whose info query answered is pushed exactly when
    neither [continue] guard fires. *)
Lemma tryWorker_filters (ch : Chain) (a : Args) (key : Key)
    (info : WorkerInfo) (s : Server) :
  query_workers ch key = Value info ->
  exists state tr,
    lookupWorkerState ch key s = (inr state, s, tr) /\
    tryWorker ch a key s
      = (inr (if passesFilters a (buildWorker key info state)
              then Pushed (buildWorker key info state) else Skipped),
         s, QueryWorker key :: tr).
Proof.
  intros Hq.
  destruct (lookupWorkerState_run ch key s) as (st & tr & Hst & _).
  exists st, tr. split; [exact Hst|].
  unfold tryWorker, await, bind, emit; simpl. rewrite Hq; simpl.
  rewrite Hst. unfold passesFilters.
  change (w_state (buildWorker key info st)) with st.
  destruct (onlineFilterSkips (onlineOnly a) st); simpl.
  - now rewrite app_nil_r.
  - destruct (teeTypeFilterSkips _ _); simpl; now rewrite app_nil_r.
Qed.

(** C5.  For filter options whose category filter, when given, is a
    non-empty string: the predicate the loop applies equals the reference
    predicate on every record (with [onlineOnly] the state must be [Ready]
    or [WorkerIdle]; with a category filter the detected type must equal it
    or be [Unknown]; both are conjoined); a probed worker is pushed exactly
    when the reference predicate holds of its record; and a record whose
    type is [Unknown] is never skipped by the category guard. *)
Theorem C5_filter_equals_reference :
  forall (a : Args),
    teeType a <> Some "" ->
    (forall w : Worker,
       passesFilters a w = matches_reference (onlineOnly a) (teeType a) w) /\
    (forall (ch : Chain) (key : Key) (info : WorkerInfo) (s : Server),
       query_workers ch key = Value info ->
       exists state tr,
         lookupWorkerState ch key s = (inr state, s, tr) /\
         tryWorker ch a key s
           = (inr (if matches_reference (onlineOnly a) (teeType a)
                        (buildWorker key info state)
                   then Pushed (buildWorker key info state) else Skipped),
              s, QueryWorker key :: tr)) /\
    (forall w : Worker,
       w_teeType w = "Unknown" ->
       teeTypeFilterSkips (teeType a) (w_teeType w) = false).
Proof.
  intros a Hne.
  assert (Heq : forall w, passesFilters a w
                  = matches_reference (onlineOnly a) (teeType a) w).
  { intros w. unfold passesFilters, matches_reference.
    now rewrite onlineFilter_reference, (teeTypeFilter_reference _ _ Hne). }
  split; [exact Heq|]. split.
  - intros ch key info s Hq.
    destruct (tryWorker_filters ch a key info s Hq) as (st & tr & Hst & Hrun).
    exists st, tr. split; [exact Hst|]. now rewrite <- Heq.
  - intros w Hw. unfold teeTypeFilterSkips. rewrite Hw; simpl.
    now rewrite andb_false_r.
Qed.

Lemma C5_filter_equals_reference_witness :
  passesFilters (mkArgs 5 true (Some "AMD SEV"))
    (buildWorker "0x01" sgxInfo "Ready")
  = matches_reference true (Some "AMD SEV")
      (buildWorker "0x01" sgxInfo "Ready").
Proof.
  assert (Hne : teeType (mkArgs 5 true (Some "AMD SEV")) <> Some "").
  { simpl. discriminate. }
  exact (proj1 (C5_filter_equals_reference _ Hne)
           (buildWorker "0x01" sgxInfo "Ready")).
Defined.

(** ** Attestation *)

Lemma tryOnChain_run (ch : Chain) (key : Key) (s : Server) :
  api s = true \/ apiCreate ch = None ->
  tryOnChain ch key s =
    match query_workers ch key with
    | Rejected msg => (inl msg, mkServer true (workerCache s), [QueryWorker key])
    | Empty =>
        (inl "Worker not found", mkServer true (workerCache s),
         [QueryWorker key])
    | Value info =>
        (inr (Json (OnChain key true (orZero (info_confidenceLevel info))
                      "Attestation verified on-chain")),
         mkServer true (workerCache s), [QueryWorker key])
    end.
Proof.
  intros Hinit.
  assert (Hi : initPhalaAPI ch s = (inr tt, mkServer true (workerCache s), [])).
  { rewrite initPhalaAPI_run. destruct s as [b c]; simpl in *.
    destruct b; [reflexivity|].
    destruct Hinit as [H|H]; [discriminate|]. now rewrite H. }
  unfold tryOnChain. rewrite (bind_inr _ _ _ _ _ _ Hi).
  unfold await, bind, emit; simpl.
  destruct (query_workers ch key); reflexivity.
Qed.

(** Once the outer [try] block has thrown [error], the answer is that of
    the on-chain fallback, and a fallback that throws anything is turned
    into the text built from [error]. *)
Lemma verifyAttestation_fallback (ch : Chain) (key : Key)
    (reportData : option string) (s : Server) (error : string) :
  serviceError (attestationService ch key reportData) = Some error ->
  verifyAttestation ch key reportData s =
    match tryOnChain ch key s with
    | (inl _, s1, t) =>
        (inr (Text ("Error verifying attestation: " ++ error)%string), s1,
         PostVerify key reportData :: t)
    | (inr r, s1, t) => (inr r, s1, PostVerify key reportData :: t)
    end.
Proof.
  intros Herr.
  unfold verifyAttestation, tryService, tryCatch, bind, emit; simpl.
  destruct (attestationService ch key reportData) as [msg|[d|]];
    simpl in *; try discriminate; inversion Herr; subst; simpl;
    destruct (tryOnChain ch key s) as [[[e|r] s1] t]; simpl;
    now rewrite ?app_nil_r.
Qed.

(** C7.  When the request to the attestation service throws (a rejected
    post, or a response without [data]) and the on-chain lookup finds the
    worker, the handler answers with the on-chain object
    [{ worker, onChainVerified: true, confidenceLevel, note }], whatever the
    error of the service was. *)
Theorem C7_fallback_verifies_on_chain :
  forall (ch : Chain) (key : Key) (reportData : option string) (s : Server)
         (error : string) (info : WorkerInfo),
    serviceError (attestationService ch key reportData) = Some error ->
    api s = true \/ apiCreate ch = None ->
    query_workers ch key = Value info ->
    verifyAttestation ch key reportData s
      = (inr (Json (OnChain key true (orZero (info_confidenceLevel info))
                      "Attestation verified on-chain")),
         mkServer true (workerCache s),
         [PostVerify key reportData; QueryWorker key]).
Proof.
  intros ch key rd s error info Herr Hinit Hq.
  rewrite (verifyAttestation_fallback _ _ _ _ _ Herr).
  rewrite (tryOnChain_run _ _ _ Hinit), Hq. reflexivity.
Qed.

Lemma C7_fallback_verifies_on_chain_witness :
  verifyAttestation readyRegistry "0x01" (Some "0xdead") initialServer
    = (inr (Json (OnChain "0x01" true 2 "Attestation verified on-chain")),
       mkServer true (workerCache initialServer),
       [PostVerify "0x01" (Some "0xdead"); QueryWorker "0x01"]).
Proof.
  apply (C7_fallback_verifies_on_chain readyRegistry "0x01" (Some "0xdead")
           initialServer "Network Error" sgxInfo).
  - reflexivity.
  - right. reflexivity.
  - reflexivity.
Defined.

(** C8, as stated, fails.  The service is unreachable and the worker is
    absent from the registry: the text handed to the caller carries the
    error of the service, not the [Worker not found] error thrown on the
    fallback path. *)
Lemma C8_not_found_is_not_reported :
  ~ (forall (ch : Chain) (key : Key) (reportData : option string)
            (s : Server) (error : string),
       serviceError (attestationService ch key reportData) = Some error ->
       query_workers ch key = Empty ->
       exists s' tr,
         verifyAttestation ch key reportData s
           = (inr (Text "Error verifying attestation: Worker not found"),
              s', tr)).
Proof.
  intros H.
  destruct (H emptyRegistry "0x01" None initialServer "Network Error"
              eq_refl eq_refl) as (s' & tr & Hrun).
  vm_compute in Hrun. discriminate.
Qed.

(** C8, amended.  When the request to the attestation service throws with
    message [error] and the worker is absent from the registry, the handler
    answers ["Error verifying attestation: " ++ error]: the error of the
    service is the one reported, and the [Worker not found] error of the
    fallback path is caught and dropped. *)
Theorem C8_primary_error_is_reported :
  forall (ch : Chain) (key : Key) (reportData : option string) (s : Server)
         (error : string),
    serviceError (attestationService ch key reportData) = Some error ->
    query_workers ch key = Empty ->
    exists s' tr,
      verifyAttestation ch key reportData s
        = (inr (Text ("Error verifying attestation: " ++ error)%string),
           s', tr).
Proof.
  intros ch key rd s error Herr Hq.
  rewrite (verifyAttestation_fallback _ _ _ _ _ Herr).
  destruct (api s) eqn:Hapi; [|destruct (apiCreate ch) as [msg|] eqn:Hc].
  - rewrite (tryOnChain_run _ _ _ (or_introl Hapi)), Hq. eauto.
  - unfold tryOnChain.
    assert (Hi : initPhalaAPI ch s = (inl msg, s, [])).
    { rewrite initPhalaAPI_run, Hapi, Hc. reflexivity. }
    rewrite (bind_inl _ _ _ _ _ _ Hi). eauto.
  - rewrite (tryOnChain_run _ _ _ (or_intror Hc)), Hq. eauto.
Qed.

Lemma C8_primary_error_is_reported_witness :
  exists s' tr,
    verifyAttestation emptyRegistry "0x01" None initialServer
      = (inr (Text "Error verifying attestation: Network Error"), s', tr).
Proof.
  apply (C8_primary_error_is_reported emptyRegistry "0x01" None
           initialServer "Network Error").
  - reflexivity.
  - reflexivity.
Defined.

(** C10, as stated, fails.  With the worker absent from the registry, the
    answer is built from the error of the attestation service, and that
    service saw [reportData]: a service that rejects a missing report with
    status 400 and a present one with status 422 makes the two answers
    differ. *)
Lemma C10_report_reaches_the_error_text :
  ~ (forall (ch : Chain) (key : Key) (report1 report2 : option string)
            (s : Server) (e1 e2 : string),
       serviceError (attestationService ch key report1) = Some e1 ->
       serviceError (attestationService ch key report2) = Some e2 ->
       fst (fst (verifyAttestation ch key report1 s))
       = fst (fst (verifyAttestation ch key report2 s))).
Proof.
  intros H.
  specialize (H pickyVerifier "0x01" None (Some "0xdead") initialServer
                _ _ eq_refl eq_refl).
  vm_compute in H. discriminate.
Qed.

(** C10, amended.  Let the request to the attestation service throw for
    both values of [reportData].  If the on-chain lookup finds the worker,
    or if the service throws the same message for both, the two calls give
    the same answer and leave the same server state. *)
Theorem C10_fallback_ignores_report :
  forall (ch : Chain) (key : Key) (report1 report2 : option string)
         (s : Server) (e1 e2 : string),
    serviceError (attestationService ch key report1) = Some e1 ->
    serviceError (attestationService ch key report2) = Some e2 ->
    e1 = e2 \/
    ((api s = true \/ apiCreate ch = None) /\
     exists info, query_workers ch key = Value info) ->
    fst (verifyAttestation ch key report1 s)
    = fst (verifyAttestation ch key report2 s).
Proof.
  intros ch key r1 r2 s e1 e2 H1 H2 Hcase.
  rewrite (verifyAttestation_fallback _ _ _ _ _ H1).
  rewrite (verifyAttestation_fallback _ _ _ _ _ H2).
  destruct Hcase as [->|(Hinit & info & Hq)].
  - destruct (tryOnChain ch key s) as [[[e|r] s1] t]; reflexivity.
  - rewrite (tryOnChain_run _ _ _ Hinit), Hq. reflexivity.
Qed.

Lemma C10_fallback_ignores_report_witness :
  fst (verifyAttestation readyRegistry "0x01" None initialServer)
  = fst (verifyAttestation readyRegistry "0x01" (Some "0xdead")
           initialServer).
Proof.
  apply (C10_fallback_ignores_report readyRegistry "0x01" None
           (Some "0xdead") initialServer "Network Error" "Network Error").
  - reflexivity.
  - reflexivity.
  - left. reflexivity.
Defined.

(** * Further properties of the worker listing *)

(** One iteration, by the answer of the worker-info query. *)
Lemma tryWorker_outcome (ch : Chain) (a : Args) (key : Key) (s : Server) :
  exists it tr,
    tryCatch (tryWorker ch a key) (fun _ => ret Failed) s = (inr it, s, tr) /\
    match query_workers ch key with
    | Rejected _ => it = Failed
    | Empty => it = Skipped
    | Value info =>
        exists state,
          it = if passesFilters a (buildWorker key info state)
               then Pushed (buildWorker key info state) else Skipped
    end.
Proof.
  destruct (query_workers ch key) as [msg| |info] eqn:Hq.
  - exists Failed, [QueryWorker key]. split; [|reflexivity].
    unfold tryCatch, tryWorker, await, bind, emit; simpl. now rewrite Hq.
  - exists Skipped, [QueryWorker key]. split; [|reflexivity].
    unfold tryCatch, tryWorker, await, bind, emit; simpl. now rewrite Hq.
  - destruct (tryWorker_filters ch a key info s Hq) as (st & tr & _ & Hrun).
    eexists _, _. split.
    + unfold tryCatch. rewrite Hrun. reflexivity.
    + exists st. reflexivity.
Qed.

Lemma subsequence_refl_nil {A : Type} (l : list A) : subsequence [] l.
Proof. induction l; constructor; assumption. Qed.

Section Listing.

Variable ch : Chain.
Variable a : Args.
Variable m : Z.

(** The loop only appends to [workerList]; what it appends are listed
    records whose keys follow the order of the key sequence; and when no
    worker-info query is rejected, [processedCount] grows by exactly the
    number of records appended. *)
Lemma forWorkerKeys_listing (keys : list Key) :
  forall (workerList : list Worker) (processedCount : Z) (s : Server),
  exists new processedCount' tr,
    forWorkerKeys ch a m keys workerList processedCount s
      = (inr (workerList ++ new, processedCount'), s, tr) /\
    subsequence (map w_publicKey new) keys /\
    Forall (listed ch a) new /\
    ((forall key msg, In key keys -> query_workers ch key <> Rejected msg) ->
     processedCount' = processedCount + Z.of_nat (List.length new)).
Proof.
  induction keys as [|key rest IH]; intros wl pc s; cbn [forWorkerKeys].
  - exists [], pc, []. rewrite app_nil_r. unfold ret.
    repeat split; try constructor. simpl. lia.
  - assert (Hstop : exists new pc' tr,
               @ret (list Worker * Z) (wl, pc) s
                 = (inr (wl ++ new, pc'), s, tr) /\
               subsequence (map w_publicKey new) (key :: rest) /\
               Forall (listed ch a) new /\
               ((forall k msg, key = k \/ In k rest ->
                   query_workers ch k <> Rejected msg) ->
                pc' = pc + Z.of_nat (List.length new))).
    { exists [], pc, []. rewrite app_nil_r. unfold ret.
      repeat split; try constructor; [apply subsequence_refl_nil|].
      simpl. lia. }
    cbn [In].
    destruct (pc >=? m); [exact Hstop|].
    destruct (Z.of_nat (List.length wl) >=? limit a); [exact Hstop|].
    clear Hstop.
    destruct (tryWorker_outcome ch a key s) as (it & t1 & Hrun & Hit).
    rewrite (bind_inr _ _ _ _ _ _ Hrun).
    destruct it as [|w|].
    + destruct (IH wl pc s) as (new & pc' & t2 & -> & Hsub & Hall & Hcnt).
      exists new, pc', (t1 ++ t2).
      split; [reflexivity|]. split; [now constructor|].
      split; [exact Hall|].
      intros Hok. apply Hcnt. intros k msg Hin. apply Hok. now right.
    + destruct (IH (wl ++ [w]) (pc + 1) s)
        as (new & pc' & t2 & -> & Hsub & Hall & Hcnt).
      assert (Hw : listed ch a w /\ w_publicKey w = key).
      { destruct (query_workers ch key) as [msg| |info] eqn:Hq;
          try discriminate.
        destruct Hit as (st & Hit).
        destruct (passesFilters a (buildWorker key info st)) eqn:Hp;
          [|discriminate].
        inversion Hit; subst w. split; [|reflexivity].
        split; [exact Hp|]. exists info, st. simpl. auto. }
      destruct Hw as (Hw & Hkey).
      exists (w :: new), pc', (t1 ++ t2).
      rewrite <- app_assoc. simpl.
      split; [reflexivity|]. split; [rewrite Hkey; now constructor|].
      split; [now constructor|].
      intros Hok. rewrite Hcnt; [lia|].
      intros k msg Hin. apply Hok. now right.
    + destruct (IH wl (pc + 1) s)
        as (new & pc' & t2 & -> & Hsub & Hall & Hcnt).
      exists new, pc', (t1 ++ t2).
      split; [reflexivity|]. split; [now constructor|].
      split; [exact Hall|].
      intros Hok. exfalso.
      destruct (query_workers ch key) as [msg| |info] eqn:Hq.
      * apply (Hok key msg); [now left|exact Hq].
      * discriminate.
      * destruct Hit as (st & Hit).
        destruct (passesFilters a (buildWorker key info st)); discriminate.
Qed.

End Listing.

(** X1.  The records of a successful answer keep the order of the cached
    key sequence: their public keys are that sequence with some keys left
    out, and [totalWorkers] is the length of the whole sequence. *)
Theorem listing_keeps_key_order :
  forall (ch : Chain) (now : Z) (a : Args) (s s' : Server)
         (body : WorkerListBody) (tr : list Event),
    getWorkerList ch now a s = (inr (Json body), s', tr) ->
    exists keys,
      data (workerCache s') = Some keys /\
      totalWorkers body = List.length keys /\
      subsequence (map w_publicKey (body_workers body)) keys.
Proof.
  intros ch now a s s' body tr Hget.
  destruct (getWorkerList_keys _ _ _ _ _ _ _ Hget)
    as (keys & t1 & t2 & Hd & Hlist & _).
  exists keys. split; [exact Hd|].
  destruct keys as [|k rest]; unfold listWorkers in Hlist.
  - inversion Hlist; subst; simpl. split; [reflexivity|constructor].
  - destruct (forWorkerKeys_listing ch a (maxToProcess a) (k :: rest) [] 0 s')
      as (new & pc & t & Hrun & Hsub & _).
    rewrite (bind_inr _ _ _ _ _ _ Hrun) in Hlist.
    inversion Hlist; subst; simpl. split; [reflexivity|exact Hsub].
Qed.

Lemma listing_keeps_key_order_witness :
  exists body s' tr keys,
    getWorkerList readyRegistry 0 (mkArgs 2 false None) initialServer
      = (inr (Json body), s', tr) /\
    data (workerCache s') = Some keys /\
    totalWorkers body = List.length keys /\
    subsequence (map w_publicKey (body_workers body)) keys.
Proof.
  destruct (listing_keeps_key_order readyRegistry 0 (mkArgs 2 false None)
              initialServer _ _ _ eq_refl) as (keys & H).
  eexists _, _, _, keys. split; [reflexivity|exact H].
Defined.

(** X2.  Every record of a successful answer was built from the answer of
    the worker-info query for its own key and passes both filters: no
    record is made up, and no filtered worker slips through. *)
Theorem listing_is_sound :
  forall (ch : Chain) (now : Z) (a : Args) (s s' : Server)
         (body : WorkerListBody) (tr : list Event) (w : Worker),
    getWorkerList ch now a s = (inr (Json body), s', tr) ->
    In w (body_workers body) ->
    passesFilters a w = true /\
    exists info state,
      query_workers ch (w_publicKey w) = Value info /\
      w = buildWorker (w_publicKey w) info state.
Proof.
  intros ch now a s s' body tr w Hget Hin.
  destruct (getWorkerList_keys _ _ _ _ _ _ _ Hget)
    as (keys & t1 & t2 & _ & Hlist & _).
  destruct keys as [|k rest]; unfold listWorkers in Hlist.
  - inversion Hlist; subst; simpl in Hin. contradiction.
  - destruct (forWorkerKeys_listing ch a (maxToProcess a) (k :: rest) [] 0 s')
      as (new & pc & t & Hrun & _ & Hall & _).
    rewrite (bind_inr _ _ _ _ _ _ Hrun) in Hlist.
    inversion Hlist; subst; simpl in Hin.
    rewrite Forall_forall in Hall. exact (Hall w Hin).
Qed.

Lemma listing_is_sound_witness :
  passesFilters (mkArgs 2 true (Some "Intel SGX"))
    (buildWorker "0x01" sgxInfo "Ready") = true /\
  exists info state,
    query_workers readyRegistry
      (w_publicKey (buildWorker "0x01" sgxInfo "Ready")) = Value info /\
    buildWorker "0x01" sgxInfo "Ready"
      = buildWorker (w_publicKey (buildWorker "0x01" sgxInfo "Ready"))
          info state.
Proof.
  eapply (listing_is_sound readyRegistry 0 (mkArgs 2 true (Some "Intel SGX"))
            initialServer).
  - vm_compute. reflexivity.
  - simpl. left. reflexivity.
Defined.

(** X3.  When no worker-info query is rejected, the reported [processed]
    counter equals [showing]: keys that were probed and then skipped (empty
    info, a filter) are not counted at all. *)
Theorem processed_ignores_skipped_keys :
  forall (ch : Chain) (now : Z) (a : Args) (s s' : Server)
         (body : WorkerListBody) (tr : list Event) (p : Z),
    getWorkerList ch now a s = (inr (Json body), s', tr) ->
    (forall key msg, query_workers ch key <> Rejected msg) ->
    processed body = Some p ->
    p = Z.of_nat (showing body).
Proof.
  intros ch now a s s' body tr p Hget Hok Hp.
  destruct (getWorkerList_keys _ _ _ _ _ _ _ Hget)
    as (keys & t1 & t2 & _ & Hlist & _).
  destruct keys as [|k rest]; unfold listWorkers in Hlist.
  - inversion Hlist; subst; simpl in Hp. discriminate.
  - destruct (forWorkerKeys_listing ch a (maxToProcess a) (k :: rest) [] 0 s')
      as (new & pc & t & Hrun & _ & _ & Hcnt).
    rewrite (bind_inr _ _ _ _ _ _ Hrun) in Hlist.
    inversion Hlist; subst; simpl in *.
    inversion Hp; subst. apply Hcnt. intros key msg _. apply Hok.
Qed.

Lemma processed_ignores_skipped_keys_witness :
  exists body s' tr,
    getWorkerList unresponsiveRegistry 0 (mkArgs 2 true None) initialServer
      = (inr (Json body), s', tr) /\
    0 = Z.of_nat (showing body) /\ probes tr = 5%nat.
Proof.
  eexists _, _, _. split; [vm_compute; reflexivity|]. split.
  - eapply (processed_ignores_skipped_keys unresponsiveRegistry 0
              (mkArgs 2 true None) initialServer).
    + vm_compute. reflexivity.
    + intros key msg. simpl. discriminate.
    + reflexivity.
  - reflexivity.
Defined.

(** X4.  Whatever the limit, a successful answer holds at most 30 records:
    each pushed record takes one step of the window, and the window is
    capped at 30. *)
Theorem listing_never_exceeds_thirty :
  forall (ch : Chain) (now : Z) (a : Args) (s s' : Server)
         (body : WorkerListBody) (tr : list Event),
    getWorkerList ch now a s = (inr (Json body), s', tr) ->
    Z.of_nat (List.length (body_workers body)) <= 30.
Proof.
  intros ch now a s s' body tr Hget.
  destruct (getWorkerList_Json _ _ _ _ _ _ _ Hget)
    as (keys & t1 & t2 & Hlist & ->).
  destruct (listWorkers_run ch a keys s')
    as (body' & t2' & Hlist' & _ & _ & _ & Hshow & _ & Hempty & Hfull).
  rewrite Hlist in Hlist'. inversion Hlist'; subst body' t2'.
  rewrite <- Hshow.
  destruct keys as [|k rest].
  - unfold listWorkers in Hlist. inversion Hlist; subst; simpl. lia.
  - destruct Hfull as (p & _ & Hsp & _ & Hmax); [discriminate|].
    unfold maxToProcess in Hmax. lia.
Qed.

(** Fifty ready workers. *)
Lemma listing_never_exceeds_thirty_witness :
  exists body s' tr,
    getWorkerList
      (mkChain None (inr (List.repeat "0x01" 50)) (fun _ => Value sgxInfo)
         None noVerifier)
      0 (mkArgs 50 false None) initialServer
      = (inr (Json body), s', tr) /\
    totalWorkers body = 50%nat /\
    Z.of_nat (List.length (body_workers body)) <= 30.
Proof.
  eexists _, _, _. split; [vm_compute; reflexivity|].
  split; [reflexivity|].
  eapply (listing_never_exceeds_thirty
            (mkChain None (inr (List.repeat "0x01" 50))
               (fun _ => Value sgxInfo) None noVerifier)
            0 (mkArgs 50 false None) initialServer).
  vm_compute. reflexivity.
Defined.

(** X5.  The handler never throws, and it answers with an error text in two
    cases only: [ApiPromise.create] threw, or the key enumeration threw; the
    text then carries that message.  Rejected, timed-out or empty worker
    queries never fail a listing. *)
Theorem listing_fails_only_on_init_or_enumeration :
  forall (ch : Chain) (now : Z) (a : Args) (s s' : Server)
         (r : string + ToolResult WorkerListBody) (tr : list Event),
    getWorkerList ch now a s = (r, s', tr) ->
    (exists body, r = inr (Json body)) \/
    (exists msg,
       r = inr (Text ("Error getting worker list: " ++ msg)%string) /\
       ((api s = false /\ apiCreate ch = Some msg) \/
        query_workers_keys ch = inl msg)).
Proof.
  intros ch now a s s' r tr Hget.
  destruct (getWorkerList_state _ _ _ _ _ _ _ Hget)
    as [(Ha & _ & _ & msg & Hc & ->)
       |[(_ & _ & _ & body & ->)
        |[(_ & _ & _ & msg & Hq & ->)
         |(_ & _ & keys & body & _ & _ & ->)]]].
  - right. exists msg. auto.
  - left. eauto.
  - right. exists msg. auto.
  - left. eauto.
Qed.

Lemma listing_fails_only_on_init_or_enumeration_witness :
  let r :=
    fst (fst (getWorkerList unreachableRegistry 0 defaultArgs initialServer))
  in
  (exists body, r = inr (Json body)) \/
  (exists msg,
     r = inr (Text ("Error getting worker list: " ++ msg)%string) /\
     ((api initialServer = false /\ apiCreate unreachableRegistry = Some msg)
      \/ query_workers_keys unreachableRegistry = inl msg)).
Proof.
  eapply (listing_fails_only_on_init_or_enumeration unreachableRegistry 0
            defaultArgs initialServer).
  vm_compute. reflexivity.
Defined.

(** X6.  What a call may do to the module state: the cache entry changes
    only in a call that enumerated, and then it becomes the enumerated keys
    stamped with the call's own clock reading; an entry, once there, is
    never cleared; and an initialised API handle stays initialised. *)
Theorem listing_cache_discipline :
  forall (ch : Chain) (now : Z) (a : Args) (s s' : Server)
         (r : string + ToolResult WorkerListBody) (tr : list Event),
    getWorkerList ch now a s = (r, s', tr) ->
    (enumerations tr = 0%nat -> workerCache s' = workerCache s) /\
    (workerCache s' <> workerCache s ->
       exists keys,
         query_workers_keys ch = inr keys /\
         workerCache s' = mkWorkerCache (Some keys) now) /\
    (data (workerCache s) <> None -> data (workerCache s') <> None) /\
    (api s = true -> api s' = true).
Proof.
  intros ch now a s s' r tr Hget.
  destruct (getWorkerList_state _ _ _ _ _ _ _ Hget)
    as [(Ha & -> & _)
       |[(Ha & Hc & _)
        |[(Ha & Hc & _)
         |(Ha & He & keys & body & Hq & Hc & _)]]].
  - repeat split; auto. intros H; now elim H.
  - rewrite Hc. repeat split; auto. intros H; now elim H.
  - rewrite Hc. repeat split; auto. intros H; now elim H.
  - repeat split; auto.
    + intros H0. rewrite H0 in He. discriminate.
    + intros _. exists keys. auto.
    + intros _. rewrite Hc. simpl. discriminate.
Qed.

Lemma listing_cache_discipline_witness :
  workerCache
    (snd (fst (getWorkerList unreachableRegistry 5 defaultArgs staleServer)))
  = workerCache staleServer.
Proof.
  apply (proj1 (listing_cache_discipline unreachableRegistry 5 defaultArgs
                  staleServer
                  (snd (fst (getWorkerList unreachableRegistry 5 defaultArgs
                               staleServer)))
                  (fst (fst (getWorkerList unreachableRegistry 5 defaultArgs
                               staleServer)))
                  (snd (getWorkerList unreachableRegistry 5 defaultArgs
                          staleServer))
                  eq_refl)).
  vm_compute. reflexivity.
Defined.

(** * Further properties of [verifyAttestation] *)

(** X7.  When the attestation service answers with a [data] object, that
    object is passed on as it is, also when it says [verified: false]: the
    fallback is not taken, the registry is not queried, and the module state
    is left alone. *)
Theorem service_answer_is_final :
  forall (ch : Chain) (key : Key) (reportData : option string) (s : Server)
         (d : VerifyData),
    attestationService ch key reportData = PostResolved (Some d) ->
    verifyAttestation ch key reportData s
      = (inr (Json (FromService key (data_verified d) (data_type d)
                      (data_confidenceLevel d) (data_timestamp d)
                      (data_details d))),
         s, [PostVerify key reportData]).
Proof.
  intros ch key rd s d Hsvc.
  unfold verifyAttestation, tryService, tryCatch, bind, emit; simpl.
  rewrite Hsvc. reflexivity.
Qed.

Lemma service_answer_is_final_witness :
  verifyAttestation
    (mkChain None (inl "RPC down") (fun _ => Empty) None
       (fun _ _ =>
          PostResolved (Some (mkVerifyData (Some false) None None None None))))
    "0x01" None initialServer
  = (inr (Json (FromService "0x01" (Some false) None None None None)),
     initialServer, [PostVerify "0x01" None]).
Proof.
  apply (service_answer_is_final
           (mkChain None (inl "RPC down") (fun _ => Empty) None
              (fun _ _ =>
                 PostResolved
                   (Some (mkVerifyData (Some false) None None None None))))
           "0x01" None initialServer
           (mkVerifyData (Some false) None None None None)).
  reflexivity.
Defined.

(** X8.  [verifyAttestation] never throws, never enumerates the registry,
    sends at most one worker-info query, and never touches the worker
    cache. *)
Theorem attestation_leaves_cache_alone :
  forall (ch : Chain) (key : Key) (reportData : option string)
         (s s' : Server) (r : string + ToolResult AttestationBody)
         (tr : list Event),
    verifyAttestation ch key reportData s = (r, s', tr) ->
    (exists answer, r = inr answer) /\
    workerCache s' = workerCache s /\
    enumerations tr = 0%nat /\
    (probes tr <= 1)%nat.
Proof.
  intros ch key rd s s' r tr Hrun.
  destruct (serviceError (attestationService ch key rd)) as [error|] eqn:He.
  - rewrite (verifyAttestation_fallback _ _ _ _ _ He) in Hrun.
    destruct (api s) eqn:Hapi; [|destruct (apiCreate ch) as [msg|] eqn:Hc].
    + rewrite (tryOnChain_run _ _ _ (or_introl Hapi)) in Hrun.
      destruct (query_workers ch key); inversion Hrun; subst; simpl;
        repeat split; eauto.
    + unfold tryOnChain in Hrun.
      assert (Hi : initPhalaAPI ch s = (inl msg, s, [])).
      { rewrite initPhalaAPI_run, Hapi, Hc. reflexivity. }
      rewrite (bind_inl _ _ _ _ _ _ Hi) in Hrun.
      inversion Hrun; subst; simpl. repeat split; eauto.
    + rewrite (tryOnChain_run _ _ _ (or_intror Hc)) in Hrun.
      destruct (query_workers ch key); inversion Hrun; subst; simpl;
        repeat split; eauto.
  - destruct (attestationService ch key rd) as [msg|[d|]] eqn:Hsvc;
      try discriminate.
    rewrite (service_answer_is_final _ _ _ _ _ Hsvc) in Hrun.
    inversion Hrun; subst; simpl. repeat split; eauto.
Qed.

Lemma attestation_leaves_cache_alone_witness :
  workerCache
    (snd (fst (verifyAttestation readyRegistry "0x01" None staleServer)))
  = workerCache staleServer.
Proof.
  apply (proj1 (proj2 (attestation_leaves_cache_alone readyRegistry "0x01"
                         None staleServer
                         (snd (fst (verifyAttestation readyRegistry "0x01"
                                      None staleServer)))
                         (fst (fst (verifyAttestation readyRegistry "0x01"
                                      None staleServer)))
                         (snd (verifyAttestation readyRegistry "0x01" None
                                 staleServer))
                         eq_refl))).
Defined.

(** * [getWorkerInfo] *)

Lemma initPhalaAPI_through (ch : Chain) (s : Server) :
  api s = true \/ apiCreate ch = None ->
  initPhalaAPI ch s = (inr tt, mkServer true (workerCache s), []).
Proof.
  intros Hinit. rewrite initPhalaAPI_run. destruct s as [b c]; simpl in *.
  destruct b; [reflexivity|].
  destruct Hinit as [H|H]; [discriminate|]. now rewrite H.
Qed.

(** Unfold the handler down to the answers of the queries. *)
Ltac info_run Hi :=
  unfold getWorkerInfo, tryCatchI, bindI, shared;
  rewrite Hi;
  unfold await, bind, emit, optionalLookup, retI, throwI, ret, throw;
  cbn [map app fst snd].

Lemma getWorkerInfo_init_failed (ch : Chain) (ex : RegistryExtras)
    (key : Key) (s : Server) (msg : string) :
  api s = false ->
  apiCreate ch = Some msg ->
  getWorkerInfo ch ex key s
    = (inr (Text ("Error getting worker info: " ++ msg)%string), s, []).
Proof.
  intros Hapi Hc.
  assert (Hi : initPhalaAPI ch s = (inl msg, s, [])).
  { rewrite initPhalaAPI_run, Hapi, Hc. reflexivity. }
  info_run Hi. reflexivity.
Qed.

(** A successful answer describes the worker the registry holds under the
    requested key. *)
Lemma getWorkerInfo_Json (ch : Chain) (ex : RegistryExtras) (key : Key)
    (s s' : Server) (d : WorkerDetails) (tr : list InfoRequest) :
  getWorkerInfo ch ex key s = (inr (Json d), s', tr) ->
  (api s = true \/ apiCreate ch = None) /\
  query_workers ch key = Value (d_info d) /\
  d_publicKey d = key /\
  s' = mkServer true (workerCache s).
Proof.
  intros Hrun.
  assert (Hinit : api s = true \/ apiCreate ch = None).
  { destruct (api s) eqn:Hapi; [now left|].
    destruct (apiCreate ch) as [msg|] eqn:Hc; [|now right].
    rewrite (getWorkerInfo_init_failed _ _ _ _ _ Hapi Hc) in Hrun.
    discriminate. }
  split; [exact Hinit|].
  pose proof (initPhalaAPI_through ch s Hinit) as Hi.
  revert Hrun. info_run Hi.
  destruct (query_workers ch key) as [msg| |info]; try discriminate.
  destruct (query_workerState ch) as [qs|];
    [destruct (qs key)|];
    (destruct (query_workerBindings ex) as [qb|];
     [destruct (qb key)|]);
    (destruct (query_endpoints ex) as [qe|];
     [destruct (qe key)|]);
    cbn; intros Hrun; inversion Hrun; subst; auto.
Qed.

(** X9.  Asked about a key the registry does not hold, [getWorkerInfo]
    answers ["Error getting worker info: Worker not found"] and the one
    worker-info query is the only request it sends: none of the optional
    lookups (state, binding, endpoint) is made, whatever the runtime
    offers. *)
Theorem worker_info_of_absent_worker :
  forall (ch : Chain) (ex : RegistryExtras) (key : Key) (s : Server),
    api s = true \/ apiCreate ch = None ->
    query_workers ch key = Empty ->
    getWorkerInfo ch ex key s
      = (inr (Text "Error getting worker info: Worker not found"),
         mkServer true (workerCache s), [Recorded (QueryWorker key)]).
Proof.
  intros ch ex key s Hinit Hq.
  pose proof (initPhalaAPI_through ch s Hinit) as Hi.
  info_run Hi. rewrite Hq. reflexivity.
Qed.

(** A runtime that offers all three optional lookups. *)
Lemma worker_info_of_absent_worker_witness :
  getWorkerInfo
    (mkChain None (inr []) (fun _ => Empty) (Some (fun _ => Value "Ready"))
       noVerifier)
    (mkRegistryExtras (Some (fun _ => Value "{}"))
       (Some (fun _ => Value "wss://worker")))
    "0x01" initialServer
  = (inr (Text "Error getting worker info: Worker not found"),
     mkServer true (workerCache initialServer),
     [Recorded (QueryWorker "0x01")]).
Proof.
  apply (worker_info_of_absent_worker
           (mkChain None (inr []) (fun _ => Empty)
              (Some (fun _ => Value "Ready")) noVerifier)
           (mkRegistryExtras (Some (fun _ => Value "{}"))
              (Some (fun _ => Value "wss://worker")))
           "0x01" initialServer).
  - right. reflexivity.
  - reflexivity.
Defined.

(** X10.  A rejected worker-state query fails [getWorkerInfo] as a whole,
    with the message of the rejection, although the worker's info was
    found, and the binding and endpoint lookups are not made any more.  The
    listing treats the same rejection as state ['Unknown'] and, without
    filters, still lists the worker. *)
Theorem worker_info_fails_where_listing_degrades :
  forall (ch : Chain) (ex : RegistryExtras) (a : Args) (key : Key)
         (s : Server) (info : WorkerInfo) (q : Key -> Query string)
         (msg : string),
    api s = true \/ apiCreate ch = None ->
    query_workers ch key = Value info ->
    query_workerState ch = Some q ->
    q key = Rejected msg ->
    onlineOnly a = false ->
    teeType a = None ->
    getWorkerInfo ch ex key s
      = (inr (Text ("Error getting worker info: " ++ msg)%string),
         mkServer true (workerCache s),
         [Recorded (QueryWorker key); Recorded (QueryWorkerState key)]) /\
    tryWorker ch a key s
      = (inr (Pushed (buildWorker key info "Unknown")), s,
         [QueryWorker key; QueryWorkerState key]).
Proof.
  intros ch ex a key s info q msg Hinit Hq Hst Hrej Honline Htee. split.
  - pose proof (initPhalaAPI_through ch s Hinit) as Hi.
    info_run Hi. rewrite Hq, Hst, Hrej. reflexivity.
  - destruct (tryWorker_filters ch a key info s Hq) as (st & tr & Hl & Hrun).
    unfold lookupWorkerState in Hl. rewrite Hst in Hl.
    unfold tryCatch, await, bind, emit in Hl; simpl in Hl.
    rewrite Hrej in Hl. simpl in Hl. inversion Hl; subst.
    rewrite Hrun. unfold passesFilters, onlineFilterSkips, teeTypeFilterSkips.
    rewrite Honline, Htee. reflexivity.
Qed.

(** A registry whose worker-state query times out. *)
Lemma worker_info_fails_where_listing_degrades_witness :
  getWorkerInfo
    (mkChain None (inr ["0x01"]) (fun _ => Value sgxInfo)
       (Some (fun _ => Rejected "State query timeout")) noVerifier)
    (mkRegistryExtras None None) "0x01" initialServer
  = (inr (Text "Error getting worker info: State query timeout"),
     mkServer true (workerCache initialServer),
     [Recorded (QueryWorker "0x01"); Recorded (QueryWorkerState "0x01")]) /\
  tryWorker
    (mkChain None (inr ["0x01"]) (fun _ => Value sgxInfo)
       (Some (fun _ => Rejected "State query timeout")) noVerifier)
    defaultArgs "0x01" initialServer
  = (inr (Pushed (buildWorker "0x01" sgxInfo "Unknown")), initialServer,
     [QueryWorker "0x01"; QueryWorkerState "0x01"]).
Proof.
  apply (worker_info_fails_where_listing_degrades
           (mkChain None (inr ["0x01"]) (fun _ => Value sgxInfo)
              (Some (fun _ => Rejected "State query timeout")) noVerifier)
           (mkRegistryExtras None None) defaultArgs "0x01" initialServer
           sgxInfo (fun _ => Rejected "State query timeout")
           "State query timeout").
  - right. reflexivity.
  - reflexivity.
  - reflexivity.
  - reflexivity.
  - reflexivity.
  - reflexivity.
Defined.

Lemma getWorkerInfo_ready (ch : Chain) (ex : RegistryExtras) (key : Key)
    (s s' : Server) (r : string + ToolResult WorkerDetails)
    (tr : list InfoRequest) :
  api s = true \/ apiCreate ch = None ->
  getWorkerInfo ch ex key s = (r, s', tr) ->
  (exists answer, r = inr answer) /\
  s' = mkServer true (workerCache s) /\
  enumerations (recorded tr) = 0%nat /\
  probes (recorded tr) = 1%nat.
Proof.
  intros Hinit.
  pose proof (initPhalaAPI_through ch s Hinit) as Hi.
  info_run Hi.
  destruct (query_workers ch key) as [msg| |info];
    [cbn; intros Hrun; inversion Hrun; subst; repeat split; eauto
    |cbn; intros Hrun; inversion Hrun; subst; repeat split; eauto
    |].
  destruct (query_workerState ch) as [qs|];
    [destruct (qs key)|];
    (destruct (query_workerBindings ex) as [qb|];
     [destruct (qb key)|]);
    (destruct (query_endpoints ex) as [qe|];
     [destruct (qe key)|]);
    cbn; intros Hrun; inversion Hrun; subst; repeat split; eauto.
Qed.

(** X11.  [getWorkerInfo] never throws, never enumerates the registry,
    sends exactly one worker-info query unless [initPhalaAPI] failed, and
    never touches the worker cache. *)
Theorem worker_info_leaves_cache_alone :
  forall (ch : Chain) (ex : RegistryExtras) (key : Key) (s s' : Server)
         (r : string + ToolResult WorkerDetails) (tr : list InfoRequest),
    getWorkerInfo ch ex key s = (r, s', tr) ->
    (exists answer, r = inr answer) /\
    workerCache s' = workerCache s /\
    enumerations (recorded tr) = 0%nat /\
    (probes (recorded tr) <= 1)%nat /\
    (api s' = true -> probes (recorded tr) = 1%nat).
Proof.
  intros ch ex key s s' r tr Hrun.
  destruct (api s) eqn:Hapi; [|destruct (apiCreate ch) as [msg|] eqn:Hc].
  - destruct (getWorkerInfo_ready _ _ _ _ _ _ _ (or_introl Hapi) Hrun)
      as (Hr & -> & He & Hp).
    rewrite Hp. repeat split; auto.
  - rewrite (getWorkerInfo_init_failed _ _ _ _ _ Hapi Hc) in Hrun.
    inversion Hrun; subst; simpl. rewrite Hapi.
    repeat split; eauto. discriminate.
  - destruct (getWorkerInfo_ready _ _ _ _ _ _ _ (or_intror Hc) Hrun)
      as (Hr & -> & He & Hp).
    rewrite Hp. repeat split; auto.
Qed.

Lemma worker_info_leaves_cache_alone_witness :
  workerCache
    (snd (fst (getWorkerInfo readyRegistry (mkRegistryExtras None None)
                 "0x01" staleServer)))
  = workerCache staleServer.
Proof.
  apply (proj1 (proj2 (worker_info_leaves_cache_alone readyRegistry
                         (mkRegistryExtras None None) "0x01" staleServer
                         (snd (fst (getWorkerInfo readyRegistry
                                      (mkRegistryExtras None None) "0x01"
                                      staleServer)))
                         (fst (fst (getWorkerInfo readyRegistry
                                      (mkRegistryExtras None None) "0x01"
                                      staleServer)))
                         (snd (getWorkerInfo readyRegistry
                                 (mkRegistryExtras None None) "0x01"
                                 staleServer))
                         eq_refl))).
Defined.

(** X12.  A worker that [getWorkerInfo] can describe passes the on-chain
    fallback of [verifyAttestation]: whenever the attestation service
    throws, the same key is verified on-chain, with the confidence level of
    the described info. *)
Theorem described_worker_passes_fallback :
  forall (ch : Chain) (ex : RegistryExtras) (key : Key)
         (reportData : option string) (s s' : Server) (d : WorkerDetails)
         (tr : list InfoRequest) (error : string),
    getWorkerInfo ch ex key s = (inr (Json d), s', tr) ->
    serviceError (attestationService ch key reportData) = Some error ->
    verifyAttestation ch key reportData s
      = (inr (Json (OnChain (d_publicKey d) true
                      (orZero (info_confidenceLevel (d_info d)))
                      "Attestation verified on-chain")),
         s', [PostVerify key reportData; QueryWorker key]).
Proof.
  intros ch ex key rd s s' d tr error Hinfo Herr.
  destruct (getWorkerInfo_Json _ _ _ _ _ _ _ Hinfo)
    as (Hinit & Hq & -> & ->).
  rewrite (verifyAttestation_fallback _ _ _ _ _ Herr).
  rewrite (tryOnChain_run _ _ _ Hinit), Hq. reflexivity.
Qed.

Lemma described_worker_passes_fallback_witness :
  verifyAttestation readyRegistry "0x02" None initialServer
  = (inr (Json (OnChain "0x02" true 2 "Attestation verified on-chain")),
     mkServer true (workerCache initialServer),
     [PostVerify "0x02" None; QueryWorker "0x02"]).
Proof.
  apply (described_worker_passes_fallback readyRegistry
           (mkRegistryExtras None None) "0x02" None initialServer
           (mkServer true (workerCache initialServer))
           (mkWorkerDetails "0x02" sgxInfo (Some "Ready") None None)
           [Recorded (QueryWorker "0x02");
            Recorded (QueryWorkerState "0x02")] "Network Error").
  - reflexivity.
  - reflexivity.
Defined.

(** * [getStakingInfo] *)

(** Once [initPhalaAPI] has gone through, the handler is its branch: a
    thrown message becomes the error text, and nothing is recorded. *)
Lemma getStakingInfo_run (ch : Chain) (staking : option StakePoolModule)
    (poolId address : option string) (s : Server)
    (branch : M (ToolResult StakingBody)) (r : string + ToolResult StakingBody) :
  api s = true \/ apiCreate ch = None ->
  (truthy poolId = true ->
     exists p, poolId = Some p /\ branch = poolBranch staking p address) ->
  (truthy poolId = false -> truthy address = true ->
     exists addr, address = Some addr /\ branch = addressBranch staking addr) ->
  (truthy poolId = false -> truthy address = false ->
     branch = generalBranch staking) ->
  branch (mkServer true (workerCache s))
    = (r, mkServer true (workerCache s), []) ->
  getStakingInfo ch staking poolId address s
    = (match r with
       | inl msg => inr (Text ("Error getting staking info: " ++ msg)%string)
       | inr answer => inr answer
       end, mkServer true (workerCache s), []).
Proof.
  intros Hinit Hpool Haddr Hgen Hrun.
  assert (Hi : initPhalaAPI ch s
               = (inr tt, mkServer true (workerCache s), [])).
  { rewrite initPhalaAPI_run. destruct s as [b c]; simpl in *.
    destruct b; [reflexivity|].
    destruct Hinit as [H|H]; [discriminate|]. now rewrite H. }
  unfold getStakingInfo, tryCatch.
  rewrite (bind_inr _ _ _ _ _ _ Hi).
  assert (Hb : match poolId with
               | Some p =>
                   if (p =? "")%string
                   then match address with
                        | Some addr =>
                            if (addr =? "")%string then generalBranch staking
                            else addressBranch staking addr
                        | None => generalBranch staking
                        end
                   else poolBranch staking p address
               | None =>
                   match address with
                   | Some addr =>
                       if (addr =? "")%string then generalBranch staking
                       else addressBranch staking addr
                   | None => generalBranch staking
                   end
               end = branch).
  { unfold truthy in *.
    destruct poolId as [p|]; [destruct (p =? "")%string eqn:Hp|]; simpl in *.
    - destruct address as [ad|];
        [destruct (ad =? "")%string eqn:Ha|]; simpl in *.
      + symmetry; auto.
      + destruct (Haddr eq_refl eq_refl) as (x & Hx & ->).
        inversion Hx; subst. reflexivity.
      + symmetry; auto.
    - destruct (Hpool eq_refl) as (x & Hx & ->).
      inversion Hx; subst. reflexivity.
    - destruct address as [ad|];
        [destruct (ad =? "")%string eqn:Ha|]; simpl in *.
      + symmetry; auto.
      + destruct (Haddr eq_refl eq_refl) as (x & Hx & ->).
        inversion Hx; subst. reflexivity.
      + symmetry; auto. }
  cbv zeta. rewrite Hb, Hrun.
  destruct r as [msg|answer]; reflexivity.
Qed.

Lemma userDelegations_In (address : string)
    (delegations : list ((string * string) * string)) (p v : string) :
  In (p, v) (userDelegations address delegations)
  <-> In ((p, address), v) delegations.
Proof.
  induction delegations as [|[[p' d'] v'] rest IH]; simpl; [tauto|].
  destruct (d' =? address)%string eqn:Hd.
  - apply String.eqb_eq in Hd. subst d'. simpl. rewrite IH.
    split; intros [H|H]; auto; left; congruence.
  - apply String.eqb_neq in Hd. rewrite IH.
    split; [auto|]. intros [H|H]; [|exact H]. congruence.
Qed.

Lemma userDelegations_subsequence (address : string)
    (delegations : list ((string * string) * string)) :
  subsequence (map fst (userDelegations address delegations))
    (map (fun e => fst (fst e)) delegations).
Proof.
  induction delegations as [|[[p d] v] rest IH]; simpl; [constructor|].
  destruct (d =? address)%string; simpl; now constructor.
Qed.

(** X13.  Asked for an address alone, the handler lists exactly the
    contributions whose delegator is that address, in the order of the
    registry's entries, and [totalPools] is their number. *)
Theorem delegations_of_address :
  forall (ch : Chain) (staking : option StakePoolModule)
         (poolId : option string) (address : string) (s : Server)
         (c : PoolContributionsQuery)
         (entries : list ((string * string) * string)),
    api s = true \/ apiCreate ch = None ->
    truthy poolId = false ->
    address <> "" ->
    moduleQuery staking poolContributions = Some c ->
    poolContributions_entries c = inr entries ->
    exists found,
      getStakingInfo ch staking poolId (Some address) s
        = (inr (Json (DelegationsBody address found (List.length found))),
           mkServer true (workerCache s), []) /\
      (forall p v, In (p, v) found <-> In ((p, address), v) entries) /\
      subsequence (map fst found) (map (fun e => fst (fst e)) entries).
Proof.
  intros ch staking poolId address s c entries Hinit Hp Ha Hc He.
  exists (userDelegations address entries).
  split; [|split; [apply userDelegations_In
                  |apply userDelegations_subsequence]].
  assert (Hta : truthy (Some address) = true).
  { simpl. apply String.eqb_neq in Ha. now rewrite Ha. }
  apply (getStakingInfo_run ch staking poolId (Some address) s
           (addressBranch staking address)
           (inr (Json (DelegationsBody address
                         (userDelegations address entries)
                         (List.length (userDelegations address entries)))))
           Hinit).
  - intros H. congruence.
  - intros _ _. eauto.
  - intros _ H. congruence.
  - unfold addressBranch. rewrite Hc. unfold awaitEntries, bind, ret.
    rewrite He. reflexivity.
Qed.

Lemma delegations_of_address_witness :
  exists found,
    getStakingInfo readyRegistry
      (Some (mkStakePoolModule None (Some sampleContributions)))
      None (Some "alice") initialServer
      = (inr (Json (DelegationsBody "alice" found (List.length found))),
         mkServer true (workerCache initialServer), []) /\
    (forall p v,
       In (p, v) found
       <-> In ((p, "alice"), v)
             [(("7", "alice"), "100"); (("8", "bob"), "5");
              (("9", "alice"), "30")]) /\
    subsequence (map fst found) ["7"; "8"; "9"].
Proof.
  apply (delegations_of_address readyRegistry
           (Some (mkStakePoolModule None (Some sampleContributions)))
           None "alice" initialServer sampleContributions
           [(("7", "alice"), "100"); (("8", "bob"), "5");
            (("9", "alice"), "30")]).
  - right. reflexivity.
  - reflexivity.
  - discriminate.
  - reflexivity.
  - reflexivity.
Defined.

(** X14.  Asked for neither a pool nor an address, the handler reports the
    number of all pools in [totalPools] but lists only the first ten, in
    the order of the registry's entries. *)
Theorem pools_overview_lists_first_ten :
  forall (ch : Chain) (staking : option StakePoolModule)
         (poolId address : option string) (s : Server)
         (q : StakePoolsQuery) (entries : list (string * string)),
    api s = true \/ apiCreate ch = None ->
    truthy poolId = false ->
    truthy address = false ->
    moduleQuery staking stakePools = Some q ->
    stakePools_entries q = inr entries ->
    exists listed rest,
      getStakingInfo ch staking poolId address s
        = (inr (Json (PoolsBody (List.length entries) listed)),
           mkServer true (workerCache s), []) /\
      entries = listed ++ rest /\
      List.length listed = Nat.min 10 (List.length entries).
Proof.
  intros ch staking poolId address s q entries Hinit Hp Ha Hq He.
  exists (firstn 10 entries), (skipn 10 entries).
  split; [|split; [symmetry; apply firstn_skipn|apply length_firstn]].
  apply (getStakingInfo_run ch staking poolId address s
           (generalBranch staking)
           (inr (Json (PoolsBody (List.length entries) (firstn 10 entries))))
           Hinit).
  - intros H. congruence.
  - intros _ H. congruence.
  - auto.
  - unfold generalBranch. rewrite Hq. unfold awaitEntries, bind, ret.
    rewrite He. reflexivity.
Qed.

Lemma pools_overview_lists_first_ten_witness :
  exists listed rest,
    getStakingInfo readyRegistry
      (Some (mkStakePoolModule (Some twelvePools) None)) None (Some "")
      initialServer
      = (inr (Json (PoolsBody 12 listed)),
         mkServer true (workerCache initialServer), []) /\
    [("1", "{}"); ("2", "{}"); ("3", "{}"); ("4", "{}"); ("5", "{}");
     ("6", "{}"); ("7", "{}"); ("8", "{}"); ("9", "{}"); ("10", "{}");
     ("11", "{}"); ("12", "{}")] = listed ++ rest /\
    List.length listed = 10%nat.
Proof.
  apply (pools_overview_lists_first_ten readyRegistry
           (Some (mkStakePoolModule (Some twelvePools) None)) None (Some "")
           initialServer twelvePools
           [("1", "{}"); ("2", "{}"); ("3", "{}"); ("4", "{}"); ("5", "{}");
            ("6", "{}"); ("7", "{}"); ("8", "{}"); ("9", "{}"); ("10", "{}");
            ("11", "{}"); ("12", "{}")]).
  - right. reflexivity.
  - reflexivity.
  - reflexivity.
  - reflexivity.
  - reflexivity.
Defined.

(** X15.  On a runtime without the staking pallet the three branches
    answer differently: a request for a pool or for an address gets the
    error text ["Error getting staking info: Staking module not
    available"], a request for the overview gets the plain text
    ["Staking module not available on this network"]. *)
Theorem staking_module_missing :
  forall (ch : Chain) (poolId address : option string) (s : Server),
    api s = true \/ apiCreate ch = None ->
    getStakingInfo ch None poolId address s
      = (inr (Text (if truthy poolId || truthy address
                    then "Error getting staking info: Staking module not available"
                    else "Staking module not available on this network")),
         mkServer true (workerCache s), []).
Proof.
  intros ch poolId address s Hinit.
  destruct (truthy poolId) eqn:Hp; [|destruct (truthy address) eqn:Ha].
  - destruct poolId as [p|]; [|discriminate].
    apply (getStakingInfo_run ch None (Some p) address s
             (poolBranch None p address)
             (inl "Staking module not available") Hinit); eauto; congruence.
  - destruct address as [ad|]; [|discriminate].
    apply (getStakingInfo_run ch None poolId (Some ad) s
             (addressBranch None ad)
             (inl "Staking module not available") Hinit); eauto; congruence.
  - apply (getStakingInfo_run ch None poolId address s (generalBranch None)
             (inr (Text "Staking module not available on this network"))
             Hinit); eauto; congruence.
Qed.

Lemma staking_module_missing_witness :
  getStakingInfo readyRegistry None (Some "") None initialServer
  = (inr (Text "Staking module not available on this network"),
     mkServer true (workerCache initialServer), []).
Proof.
  apply (staking_module_missing readyRegistry (Some "") None initialServer).
  right. reflexivity.
Defined.

(** X16.  A pool id takes precedence over an address.  With a pool id the
    answer is about that pool alone: an unknown pool gives ["Pool not
    found"] whatever the address, and for a known pool the address only
    selects the [delegation] field, which stays [null] when the address is
    missing, when the runtime has no [poolContributions] query, or when the
    address has no contribution in the pool. *)
Theorem pool_request_ignores_other_pools :
  forall (ch : Chain) (m : StakePoolModule) (q : StakePoolsQuery)
         (poolId : string) (address : option string) (s : Server),
    api s = true \/ apiCreate ch = None ->
    poolId <> "" ->
    stakePools m = Some q ->
    (stakePools_at q poolId = Empty ->
       getStakingInfo ch (Some m) (Some poolId) address s
         = (inr (Text "Error getting staking info: Pool not found"),
            mkServer true (workerCache s), [])) /\
    (forall info,
       stakePools_at q poolId = Value info ->
       (truthy address = false \/ poolContributions m = None \/
        exists c addr,
          poolContributions m = Some c /\ address = Some addr /\
          poolContributions_at c poolId addr = Empty) ->
       getStakingInfo ch (Some m) (Some poolId) address s
         = (inr (Json (PoolBody poolId info None)),
            mkServer true (workerCache s), [])) /\
    (forall info c addr amount,
       stakePools_at q poolId = Value info ->
       poolContributions m = Some c ->
       address = Some addr -> addr <> "" ->
       poolContributions_at c poolId addr = Value amount ->
       getStakingInfo ch (Some m) (Some poolId) address s
         = (inr (Json (PoolBody poolId info (Some amount))),
            mkServer true (workerCache s), [])).
Proof.
  intros ch m q poolId address s Hinit Hp Hq.
  assert (Htp : truthy (Some poolId) = true).
  { simpl. apply String.eqb_neq in Hp. now rewrite Hp. }
  assert (Hrun : forall r,
             poolBranch (Some m) poolId address
               (mkServer true (workerCache s))
               = (r, mkServer true (workerCache s), []) ->
             getStakingInfo ch (Some m) (Some poolId) address s
               = (match r with
                  | inl msg =>
                      inr (Text ("Error getting staking info: " ++ msg)%string)
                  | inr answer => inr answer
                  end, mkServer true (workerCache s), [])).
  { intros r Hr.
    apply (getStakingInfo_run ch (Some m) (Some poolId) address s
             (poolBranch (Some m) poolId address) r Hinit); eauto;
      congruence. }
  split; [|split].
  - intros He. apply (Hrun (inl "Pool not found")).
    unfold poolBranch, moduleQuery. rewrite Hq.
    unfold awaitQuery, bind. rewrite He. reflexivity.
  - intros info Hv Hnone.
    apply (Hrun (inr (Json (PoolBody poolId info None)))).
    unfold poolBranch, moduleQuery. rewrite Hq.
    unfold awaitQuery, bind. rewrite Hv. unfold ret.
    destruct Hnone as [Ha|[Hc|(c & addr & Hc & Ha & He)]].
    + destruct address as [ad|]; [|reflexivity].
      simpl in Ha. destruct (ad =? "")%string; [|discriminate].
      destruct (poolContributions m); reflexivity.
    + rewrite Hc. destruct address; reflexivity.
    + rewrite Hc, Ha. destruct (addr =? "")%string; [reflexivity|].
      rewrite He. reflexivity.
  - intros info c addr amount Hv Hc Ha Hne Hamount.
    apply (Hrun (inr (Json (PoolBody poolId info (Some amount))))).
    unfold poolBranch, moduleQuery. rewrite Hq.
    unfold awaitQuery, bind. rewrite Hv. unfold ret.
    rewrite Hc, Ha. apply String.eqb_neq in Hne. rewrite Hne, Hamount.
    reflexivity.
Qed.

Lemma pool_request_ignores_other_pools_witness :
  getStakingInfo readyRegistry
    (Some (mkStakePoolModule (Some twelvePools) (Some sampleContributions)))
    (Some "7") (Some "alice") initialServer
  = (inr (Text "Error getting staking info: Pool not found"),
     mkServer true (workerCache initialServer), []).
Proof.
  apply (proj1 (pool_request_ignores_other_pools readyRegistry
                  (mkStakePoolModule (Some twelvePools)
                     (Some sampleContributions))
                  twelvePools "7" (Some "alice") initialServer
                  (or_intror eq_refl)
                  ltac:(discriminate) eq_refl)).
  reflexivity.
Defined.

(** * The DStack container handlers *)

Lemma lastTen_suffix (logs : list string) :
  exists older,
    logs = older ++ lastTen logs /\
    List.length (lastTen logs) = Nat.min 10 (List.length logs).
Proof.
  exists (firstn (List.length logs - 10) logs). unfold lastTen. split.
  - symmetry. apply firstn_skipn.
  - rewrite length_skipn. lia.
Qed.

(** X17.  A container status answer carries at most the last ten log
    lines: the [logs] of the answer are a suffix of the lines the service
    returned, ten of them when there are ten or more. *)
Theorem container_status_keeps_last_ten_lines :
  forall (cfg : Config) (get : HttpRequest -> HttpOutcome ContainerData)
         (containerId url : string) (d : ContainerData)
         (logs : list string),
    dstack_apiUrl cfg = Some url ->
    url <> "" ->
    get (mkHttpRequest (url ++ "/containers/" ++ containerId) (bearer cfg))
      = HttpOk (Some d) ->
    cd_logs d = Some logs ->
    exists older shown,
      fst (getContainerStatus cfg get containerId)
        = ContainerStatus containerId (cd_name d) (cd_image d) (cd_status d)
            (cd_uptime d) (cd_resources d) (cd_metrics d) (cd_attestation d)
            (Some shown) /\
      logs = older ++ shown /\
      List.length shown = Nat.min 10 (List.length logs).
Proof.
  intros cfg get containerId url d logs Hurl Hne Hget Hlogs.
  destruct (lastTen_suffix logs) as (older & Hsplit & Hlen).
  exists older, (lastTen logs). split; [|split; assumption].
  unfold getContainerStatus. rewrite Hurl.
  apply String.eqb_neq in Hne. rewrite Hne, Hget, Hlogs. reflexivity.
Qed.

Lemma container_status_keeps_last_ten_lines_witness :
  exists older shown,
    fst (getContainerStatus withDStack chattyContainer "42")
      = ContainerStatus "42" (Some "web") None (Some "running") None None
          None None (Some shown) /\
    twelveLines = older ++ shown /\
    List.length shown = 10%nat.
Proof.
  apply (container_status_keeps_last_ten_lines withDStack chattyContainer
           "42" "https://dstack.example"
           (mkContainerData (Some "web") None (Some "running") None None
              None None (Some twelveLines))
           twelveLines).
  - reflexivity.
  - discriminate.
  - reflexivity.
  - reflexivity.
Defined.

(** X18.  Without a configured DStack endpoint neither container handler
    sends a request: each answers at once with its error object, whose
    message names [DSTACK_API_URL] and whose hint is the default one,
    whatever the service would have said. *)
Theorem unconfigured_dstack_sends_nothing :
  forall (cfg : Config) (get : HttpRequest -> HttpOutcome ContainerData)
         (post : HttpRequest -> DeploymentConfig -> HttpOutcome DeployData)
         (containerId : string) (args : DeployArgs),
    truthy (dstack_apiUrl cfg) = false ->
    getContainerStatus cfg get containerId
      = (ContainerStatusError "Failed to get container status"
           "DStack API endpoint not configured. Please set DSTACK_API_URL environment variable to access container status."
           "Please verify the container ID and DStack configuration"
           containerId, []) /\
    deployContainer cfg post args
      = (DeployError "Container deployment failed"
           "DStack API endpoint not configured. Please set DSTACK_API_URL environment variable to deploy containers in TEE. Contact Phala Network for DStack access credentials."
           "Please verify your DStack configuration and try again"
           (dep_image args) (dep_name args)
           (orNumber (resource args res_memory) 512)
           (orNumber (resource args res_cpu) 1), []).
Proof.
  intros cfg get post containerId args Hcfg.
  unfold getContainerStatus, deployContainer, truthy in *.
  destruct (dstack_apiUrl cfg) as [url|].
  - destruct (url =? "")%string; [|discriminate]. split; reflexivity.
  - split; reflexivity.
Qed.

Lemma unconfigured_dstack_sends_nothing_witness :
  snd (getContainerStatus noDStack chattyContainer "42") = [] /\
  snd (deployContainer noDStack acceptingDStack gpuJob) = [].
Proof.
  assert (H : truthy (dstack_apiUrl noDStack) = false) by reflexivity.
  destruct (unconfigured_dstack_sends_nothing noDStack chattyContainer
              acceptingDStack "42" gpuJob H) as (H1 & H2).
  rewrite H1, H2. split; reflexivity.
Defined.

(** X19.  The request [deployContainer] sends never asks for zero CPUs or
    zero memory (a missing or zero value becomes 1 CPU, 512 MB), always
    requires strict attestation, and names the TEE type [NVIDIA H100]
    exactly when a GPU is requested and [Intel SGX] otherwise; the answer to
    a successful deployment reports that same TEE type. *)
Theorem deployment_request_shape :
  forall (cfg : Config)
         (post : HttpRequest -> DeploymentConfig -> HttpOutcome DeployData)
         (args : DeployArgs) (url : string),
    dstack_apiUrl cfg = Some url ->
    url <> "" ->
    let config := deploymentConfig args in
    snd (deployContainer cfg post args)
      = [(mkHttpRequest (url ++ "/containers/deploy") (bearer cfg), config)]
    /\ dc_cpu config <> 0 /\ dc_memory config <> 0
    /\ dc_attestation_required config = true
    /\ (dc_teeType config = "NVIDIA H100"
        <-> resource args res_gpu = Some true)
    /\ (dc_teeType config = "Intel SGX"
        <-> resource args res_gpu <> Some true)
    /\ match fst (deployContainer cfg post args) with
       | Deployed _ _ _ _ _ _ teeType _ _ _ gpu _ _ =>
           teeType = dc_teeType config /\ gpu = dc_gpu config
       | DeployError _ _ _ _ _ _ _ => True
       end.
Proof.
  intros cfg post args url Hurl Hne config.
  apply String.eqb_neq in Hne.
  split; [|split; [|split; [|split; [|split; [|split]]]]].
  - unfold deployContainer. rewrite Hurl, Hne. fold config.
    destruct (post _ config) as [e|[d|]]; try reflexivity.
    destruct (dd_containerId d) as [id|]; [|reflexivity].
    destruct (id =? "")%string; reflexivity.
  - subst config. simpl. unfold orNumber.
    destruct (resource args res_cpu) as [v|]; [|discriminate].
    destruct (v =? 0) eqn:Hv; [discriminate|]. now apply Z.eqb_neq.
  - subst config. simpl. unfold orNumber.
    destruct (resource args res_memory) as [v|]; [|discriminate].
    destruct (v =? 0) eqn:Hv; [discriminate|]. now apply Z.eqb_neq.
  - reflexivity.
  - subst config. simpl. unfold gpuRequested.
    destruct (resource args res_gpu) as [[|]|]; split; intros H;
      try reflexivity; discriminate.
  - subst config. simpl. unfold gpuRequested.
    destruct (resource args res_gpu) as [[|]|]; split; intros H;
      try reflexivity; try discriminate; now elim H.
  - unfold deployContainer. rewrite Hurl, Hne. fold config.
    destruct (post _ config) as [e|[d|]]; try exact I.
    destruct (dd_containerId d) as [id|]; [|exact I].
    destruct (id =? "")%string; [exact I|]. split; reflexivity.
Qed.

Lemma deployment_request_shape_witness :
  snd (deployContainer withDStack acceptingDStack gpuJob)
  = [(mkHttpRequest "https://dstack.example/containers/deploy"
        (Some "Bearer secret"),
      mkDeploymentConfig "img:1" "job" "c1" [] [] 1 512 true "NVIDIA H100"
        true "strict")].
Proof.
  assert (Hne : "https://dstack.example" <> "") by discriminate.
  exact (proj1 (deployment_request_shape withDStack acceptingDStack gpuJob
                  "https://dstack.example" eq_refl Hne)).
Defined.

(** X20.  [deployContainer] accepts an answer only if it carries a
    container id.  When the service answers without one (no [data], no
    [containerId], or an empty one) the request has been sent, yet the
    handler reports ["Invalid response from DStack API"] with the default
    hint. *)
Theorem deployment_needs_container_id :
  forall (cfg : Config)
         (post : HttpRequest -> DeploymentConfig -> HttpOutcome DeployData)
         (args : DeployArgs) (url : string) (data : option DeployData),
    dstack_apiUrl cfg = Some url ->
    url <> "" ->
    post (mkHttpRequest (url ++ "/containers/deploy") (bearer cfg))
      (deploymentConfig args) = HttpOk data ->
    match data with
    | Some d => truthy (dd_containerId d) = false
    | None => True
    end ->
    deployContainer cfg post args
      = (DeployError "Container deployment failed"
           "Invalid response from DStack API"
           "Please verify your DStack configuration and try again"
           (dep_image args) (dep_name args)
           (orNumber (resource args res_memory) 512)
           (orNumber (resource args res_cpu) 1),
         [(mkHttpRequest (url ++ "/containers/deploy") (bearer cfg),
           deploymentConfig args)]).
Proof.
  intros cfg post args url data Hurl Hne Hpost Hid.
  apply String.eqb_neq in Hne.
  unfold deployContainer. rewrite Hurl, Hne, Hpost.
  destruct data as [d|]; [|reflexivity].
  unfold truthy in Hid.
  destruct (dd_containerId d) as [id|]; [|reflexivity].
  destruct (id =? "")%string; [reflexivity|discriminate].
Qed.

Lemma deployment_needs_container_id_witness :
  fst (deployContainer withDStack silentDStack gpuJob)
  = DeployError "Container deployment failed"
      "Invalid response from DStack API"
      "Please verify your DStack configuration and try again"
      "img:1" "job" 512 1.
Proof.
  assert (Hne : "https://dstack.example" <> "") by discriminate.
  rewrite (deployment_needs_container_id withDStack silentDStack gpuJob
             "https://dstack.example"
             (Some (mkDeployData None None (Some "running") None))
             eq_refl Hne eq_refl eq_refl).
  reflexivity.
Defined.



(** * The Phala Cloud service *)

Lemma includesWord_true (l : list string) (word : string) :
  includesWord l word = true <-> In word l.
Proof.
  unfold includesWord. rewrite existsb_exists. split.
  - intros (x & Hin & Heq). apply String.eqb_eq in Heq. now subst.
  - intros Hin. exists word. split; [assumption|apply String.eqb_refl].
Qed.

(** X22.  The service gives a workflow a chain configuration exactly when
    its triggers include [onchain], and a time configuration exactly when
    they include [time]; the triggers themselves are returned unchanged and
    the status is [created]. *)
Theorem workflow_configs_follow_triggers :
  forall (uuid isoNow : string) (w : Workflow) (triggers : list string),
    wf_triggers w = Some triggers ->
    exists t,
      service_createWorkflow uuid isoNow w = inr t /\
      wt_triggers t = triggers /\
      wt_status t = "created" /\
      (wt_chainConfig t <> None <-> In "onchain" triggers) /\
      (wt_timeConfig t <> None <-> In "time" triggers).
Proof.
  intros uuid isoNow w triggers Ht.
  unfold service_createWorkflow. rewrite Ht.
  eexists. split; [reflexivity|]. simpl.
  split; [reflexivity|]. split; [reflexivity|].
  rewrite <- !includesWord_true.
  destruct (includesWord triggers "onchain"),
    (includesWord triggers "time"); simpl;
    repeat split; intros; try discriminate; try reflexivity;
    try (now elim H).
Qed.

Lemma workflow_configs_follow_triggers_witness :
  exists t,
    service_createWorkflow "id-1" "2025-01-01T00:00:00.000Z"
      (mkWorkflow "w" "d" (Some ["time"]) None None None None None None
         (Some "0 * * * *") None) = inr t /\
    wt_triggers t = ["time"] /\
    wt_status t = "created" /\
    (wt_chainConfig t <> None <-> In "onchain" ["time"]) /\
    (wt_timeConfig t <> None <-> In "time" ["time"]).
Proof.
  apply (workflow_configs_follow_triggers "id-1" "2025-01-01T00:00:00.000Z"
           (mkWorkflow "w" "d" (Some ["time"]) None None None None None None
              (Some "0 * * * *") None)
           ["time"]).
  reflexivity.
Defined.

(** X23.  The [createWorkflow] tool cannot fail, and the schedule it is
    given never reaches the time configuration: the tool passes it on as
    [schedule], while the service reads [cron] and [timezone], which the
    tool never sets.  So a time configuration made through the tool has no
    [cron] and the timezone [UTC], and a chain configuration has no
    [event]. *)
Theorem workflow_tool_never_sets_cron :
  forall (uuid isoNow : string) (a : WorkflowArgs),
    exists t,
      createWorkflow uuid isoNow a = Json t /\
      wt_schedule t = wa_schedule a /\
      wt_conditions t = orEmpty (wa_conditions a) /\
      (forall tc, wt_timeConfig t = Some tc ->
                  tc_cron tc = None /\ tc_timezone tc = "UTC") /\
      (forall cc, wt_chainConfig t = Some cc ->
                  cc_event cc = None /\
                  cc_contract cc = wa_contract a /\
                  cc_network cc = orString (wa_network a) "phala").
Proof.
  intros uuid isoNow a.
  unfold createWorkflow, service_createWorkflow, toolWorkflow. simpl.
  eexists. split; [reflexivity|]. simpl.
  split; [reflexivity|]. split; [reflexivity|]. split.
  - intros tc Htc. destruct (includesWord (wa_triggers a) "time");
      inversion Htc; subst; auto.
  - intros cc Hcc. destruct (includesWord (wa_triggers a) "onchain");
      inversion Hcc; subst; auto.
Qed.

(** X24.  The [generateVRF] tool sends exactly one request.  The request
    carries a range only when both [min] and [max] are given (a single
    bound is dropped), and the seed of the caller when it is a non-empty
    string, a fresh random one otherwise.  A successful answer echoes the
    range that was sent. *)
Theorem vrf_request_shape :
  forall (svc : CloudService)
         (post : string -> VrfRequest -> HttpOutcome VrfData)
         (randomHex : string) (now : Z) (seed : option string)
         (min max : option Z),
    exists request,
      snd (generateVRF svc post randomHex now seed min max)
        = [((template (vrfEndpoint svc) ++ "/generate")%string, request)] /\
      vrf_timestamp request = now /\
      (forall lo hi,
         vrf_range request = Some (lo, hi) <-> min = Some lo /\ max = Some hi)
      /\
      (truthy seed = true -> seed = Some (vrf_seed request)) /\
      (truthy seed = false -> vrf_seed request = randomHex) /\
      (forall result,
         fst (generateVRF svc post randomHex now seed min max) = Json result ->
         vr_range result = vrf_range request).
Proof.
  intros svc post randomHex now seed min max.
  exists (mkVrfRequest (orString seed randomHex) (vrfRange min max) now).
  unfold generateVRF, service_generateVRF.
  destruct (post _ _) as [e|[d|]] eqn:Hpost; simpl;
    (split; [reflexivity|]); (split; [reflexivity|]);
    (split; [intros lo hi; destruct min, max; simpl; split;
             [intros H; inversion H; auto
             |intros [H1 H2]; congruence
             |discriminate|intros [H1 H2]; congruence
             |discriminate|intros [H1 H2]; congruence
             |discriminate|intros [H1 H2]; congruence]|]);
    (split; [unfold truthy, orString; destruct seed as [v|];
             [destruct (v =? "")%string; [discriminate|reflexivity]
             |discriminate]|]);
    (split; [unfold truthy, orString; destruct seed as [v|];
             [destruct (v =? "")%string; [reflexivity|discriminate]
             |reflexivity]|]);
    intros result H; inversion H; reflexivity.
Qed.

(** X25.  Whatever goes wrong in the VRF request (a rejected post, or a
    response without [data]), the tool answers with one text: the message
    of the error wrapped by the service and prefixed by the tool. *)
Theorem vrf_failure_text :
  forall (svc : CloudService)
         (post : string -> VrfRequest -> HttpOutcome VrfData)
         (randomHex : string) (now : Z) (seed : option string)
         (min max : option Z) (msg : string),
    match post (template (vrfEndpoint svc) ++ "/generate")%string
            (mkVrfRequest (orString seed randomHex) (vrfRange min max) now)
    with
    | HttpFailed e => err_message e = msg
    | HttpOk None =>
        msg = "Cannot read properties of undefined (reading 'value')"
    | HttpOk (Some _) => False
    end ->
    fst (generateVRF svc post randomHex now seed min max)
      = Text ("Error generating VRF: VRF service unavailable: " ++ msg ++
              ". Configure PHALA_VRF_ENDPOINT for verifiable randomness").
Proof.
  intros svc post randomHex now seed min max msg Hpost.
  unfold generateVRF, service_generateVRF.
  destruct (post _ _) as [e|[d|]]; simpl.
  - now subst msg.
  - contradiction.
  - now subst msg.
Qed.

Lemma vrf_failure_text_witness :
  fst (generateVRF (mkCloudService None None None) vrfDown "ab" 5 None
         (Some 1) None)
  = Text "Error generating VRF: VRF service unavailable: connect ECONNREFUSED. Configure PHALA_VRF_ENDPOINT for verifiable randomness".
Proof.
  apply (vrf_failure_text (mkCloudService None None None) vrfDown "ab" 5
           None (Some 1) None "connect ECONNREFUSED").
  reflexivity.
Defined.

Lemma workflow_tool_never_sets_cron_witness :
  exists t,
    createWorkflow "id-1" "2025-01-01T00:00:00.000Z"
      (mkWorkflowArgs "w" "d" ["time"; "onchain"] ["notify"] None
         (Some "0 * * * *") None None) = Json t /\
    wt_schedule t = Some "0 * * * *" /\
    wt_timeConfig t = Some (mkTimeConfig None "UTC") /\
    wt_chainConfig t = Some (mkChainConfig "phala" None None).
Proof.
  destruct (workflow_tool_never_sets_cron "id-1" "2025-01-01T00:00:00.000Z"
              (mkWorkflowArgs "w" "d" ["time"; "onchain"] ["notify"] None
                 (Some "0 * * * *") None None))
    as (t & Ht & Hs & _).
  exists t. split; [exact Ht|]. split; [exact Hs|].
  inversion Ht; subst t. split; reflexivity.
Defined.

Lemma vrf_request_shape_witness :
  exists request,
    snd (generateVRF (mkCloudService None (Some "https://vrf.example") None)
           vrfUp "ab" 5 (Some "") (Some 1) None)
      = [("https://vrf.example/generate", request)] /\
    vrf_range request = None /\
    vrf_seed request = "ab".
Proof.
  destruct (vrf_request_shape
              (mkCloudService None (Some "https://vrf.example") None)
              vrfUp "ab" 5 (Some "") (Some 1) None)
    as (request & Hsent & _ & _ & _ & Hseed & _).
  exists request. split; [exact Hsent|].
  inversion Hsent; subst request. split; reflexivity.
Defined.

(** * [sequentialThinking] *)

Lemma splitKeywords_nonempty (s : string) :
  forall skip, splitKeywords skip s <> [].
Proof.
  induction s as [|c rest IH]; intros skip; simpl; [discriminate|].
  destruct skip as [|k]; [|apply IH].
  destruct (keywordAt (String c rest)); [discriminate|].
  destruct (splitKeywords 0 rest); discriminate.
Qed.

Lemma actionSteps_shape (actions : list string) :
  forall index,
    map step (actionSteps index actions)
      = seq (index + 1) (List.length actions) /\
    Forall followsPrevious (actionSteps index actions).
Proof.
  induction actions as [|a rest IH]; intros index; simpl.
  - split; constructor.
  - destruct (IH (S index)) as (Hnum & Hdep). split.
    + rewrite Hnum. reflexivity.
    + constructor; [|exact Hdep].
      unfold followsPrevious. cbn [step dependencies].
      destruct index as [|i]; [reflexivity|].
      replace (0 <? S i)%nat with true
        by (symmetry; apply Nat.ltb_lt; lia).
      replace (1 <? S i + 1)%nat with true
        by (symmetry; apply Nat.ltb_lt; lia).
      f_equal. f_equal. lia.
Qed.

Lemma actionSteps_length (actions : list string) :
  forall index,
    List.length (actionSteps index actions) = List.length actions.
Proof.
  induction actions as [|a rest IH]; intros index; simpl; [reflexivity|].
  now rewrite IH.
Qed.

(** The steps before the two context-specific ones. *)
Lemma thinking_actions (task : string) :
  exists acts,
    (if isComplex task then actionSteps 0 (splitKeywords 0 task)
     else [mkStep 1 task [] "pending"]) = acts /\
    acts <> [] /\
    map step acts = seq 1 (List.length acts) /\
    Forall followsPrevious acts /\
    (isComplex task = false -> acts = [mkStep 1 task [] "pending"]).
Proof.
  destruct (isComplex task).
  - exists (actionSteps 0 (splitKeywords 0 task)).
    destruct (actionSteps_shape (splitKeywords 0 task) 0) as (Hnum & Hdep).
    split; [reflexivity|]. split; [|split; [|split]].
    + pose proof (splitKeywords_nonempty task 0).
      destruct (splitKeywords 0 task); [contradiction|discriminate].
    + rewrite Hnum, actionSteps_length. reflexivity.
    + exact Hdep.
    + discriminate.
  - exists [mkStep 1 task [] "pending"].
    split; [reflexivity|]. split; [discriminate|].
    split; [reflexivity|]. split; [|reflexivity].
    constructor; [reflexivity|constructor].
Qed.

(** X26.  The steps of a plan are numbered as follows: [0] for the
    authentication step, if there is one; [1] to [k] for the [k >= 1]
    action steps ([k = 1], with the task text unchanged, when the task is
    not complex); and for the validation step the number of steps before
    it, which is [k + 1] with authentication and [k] without.  The
    estimated time is five seconds per step. *)
Theorem thinking_step_numbers :
  forall (task : string) (requiresAuth requiresValidation : bool),
    let plan :=
      service_sequentialThinking task requiresAuth requiresValidation in
    exists k,
      (1 <= k)%nat /\
      map step (th_steps plan)
        = (if requiresAuth then [0%nat] else [])
          ++ seq 1 k
          ++ (if requiresValidation
              then [if requiresAuth then (k + 1)%nat else k]
              else []) /\
      th_estimatedTime plan = (5 * List.length (th_steps plan))%nat /\
      (isComplex task = false ->
         k = 1%nat /\
         In (mkStep 1 task [] "pending") (th_steps plan)).
Proof.
  intros task auth val plan. subst plan.
  unfold service_sequentialThinking.
  destruct (thinking_actions task) as (acts & -> & Hne & Hnum & _ & Hsimple).
  exists (List.length acts).
  split; [destruct acts; [contradiction|simpl; lia]|].
  cbn [th_steps th_estimatedTime].
  split; [|split; [lia|]].
  - replace (List.length acts + 1)%nat with (S (List.length acts)) by lia.
    destruct auth, val; cbn [app map step List.length];
      rewrite ?map_app, ?Hnum; cbn [map step];
      rewrite ?app_nil_r; reflexivity.
  - intros Hs. rewrite (Hsimple Hs). split; [reflexivity|].
    destruct auth, val; simpl; auto.
Qed.

Lemma thinking_step_numbers_witness :
  exists k,
    (1 <= k)%nat /\
    map step (th_steps (service_sequentialThinking
                          "compile the contract then deploy it" true true))
      = [0%nat] ++ seq 1 k ++ [(k + 1)%nat] /\
    th_estimatedTime (service_sequentialThinking
                        "compile the contract then deploy it" true true)
      = (5 * List.length
               (th_steps (service_sequentialThinking
                            "compile the contract then deploy it" true
                            true)))%nat.
Proof.
  destruct (thinking_step_numbers "compile the contract then deploy it"
              true true) as (k & Hk & Hnum & Htime & _).
  exists k. split; [exact Hk|]. split; [exact Hnum|exact Htime].
Defined.

Lemma seq_NoDup_snoc (k : nat) :
  (1 <= k)%nat -> ~ NoDup (seq 1 k ++ [k]).
Proof.
  intros Hk Hnd. apply NoDup_remove_2 in Hnd. apply Hnd.
  rewrite app_nil_r. apply in_seq. lia.
Qed.

(** X27.  The step numbers of a plan are pairwise distinct exactly when
    authentication is required or validation is not: without the
    authentication step, the validation step repeats the number of the last
    action step. *)
Theorem thinking_step_numbers_collide :
  forall (task : string) (requiresAuth requiresValidation : bool),
    NoDup (map step
             (th_steps (service_sequentialThinking task requiresAuth
                          requiresValidation)))
    <-> requiresAuth = true \/ requiresValidation = false.
Proof.
  intros task auth val.
  destruct (thinking_step_numbers task auth val) as (k & Hk & Hnum & _).
  cbv zeta in Hnum. rewrite Hnum. clear Hnum.
  destruct auth, val; cbn [app]; rewrite ?app_nil_r.
  - split; [auto|]. intros _.
    change (0%nat :: seq 1 k ++ [(k + 1)%nat])
      with (seq 0 1 ++ seq 1 k ++ [(k + 1)%nat]).
    replace [(k + 1)%nat] with (seq (1 + k) 1) by (simpl; f_equal; lia).
    rewrite <- seq_app, <- seq_app. apply seq_NoDup.
  - split; [auto|]. intros _.
    change (0%nat :: seq 1 k) with (seq 0 1 ++ seq 1 k).
    rewrite <- seq_app. apply seq_NoDup.
  - split.
    + intros Hnd. exfalso. exact (seq_NoDup_snoc k Hk Hnd).
    + intros [H|H]; discriminate.
  - split; [auto|]. intros _. apply seq_NoDup.
Qed.

Lemma thinking_step_numbers_collide_witness :
  ~ NoDup (map step
             (th_steps (service_sequentialThinking "deploy and verify"
                          false true))).
Proof.
  intros H.
  apply (proj1 (thinking_step_numbers_collide "deploy and verify" false true))
    in H.
  destruct H as [H|H]; discriminate.
Defined.

(** X28.  With authentication every dependency of every step names a step
    of the plan with a smaller number.  Without it the validation step
    depends on the number before the last action step, so the validation of
    a one-action plan depends on step [0], which the plan does not have. *)
Theorem thinking_dependencies :
  forall (task : string) (requiresValidation : bool),
    (forall st d,
       In st (th_steps (service_sequentialThinking task true
                          requiresValidation)) ->
       In d (dependencies st) ->
       (d < step st)%nat /\
       In d (map step (th_steps (service_sequentialThinking task true
                                   requiresValidation)))) /\
    (isComplex task = false ->
       th_steps (service_sequentialThinking task false true)
       = [mkStep 1 task [] "pending";
          mkStep 1 "Validate results and generate proof" [0%nat] "pending"]).
Proof.
  intros task val. split.
  - intros st d. unfold service_sequentialThinking.
    destruct (thinking_actions task)
      as (acts & -> & Hne & Hnum & Hdep & _).
    cbn [th_steps].
    set (n := List.length acts) in *.
    assert (Hn : (1 <= n)%nat).
    { subst n. destruct acts; [contradiction|simpl; lia]. }
    set (auth := mkStep 0 "Authenticate and verify permissions" []
                   "pending").
    assert (Hsteps :
              map step
                (if val
                 then (auth :: acts)
                      ++ [mkStep (List.length (auth :: acts))
                            "Validate results and generate proof"
                            [(List.length (auth :: acts) - 1)%nat] "pending"]
                 else auth :: acts)
              = 0%nat :: seq 1 n ++ (if val then [S n] else [])).
    { destruct val; cbn [app map step List.length];
        rewrite ?map_app, ?Hnum, ?app_nil_r; reflexivity. }
    rewrite Hsteps. clear Hsteps.
    assert (Hact : In st acts -> In d (dependencies st) ->
                   (d < step st)%nat /\ In d (seq 1 n)).
    { intros Ha Hda. rewrite Forall_forall in Hdep.
      pose proof (Hdep st Ha) as Hf. unfold followsPrevious in Hf.
      assert (Hsa : In (step st) (seq 1 n)).
      { rewrite <- Hnum. now apply in_map. }
      apply in_seq in Hsa. rewrite Hf in Hda.
      destruct (1 <? step st)%nat eqn:Hlt; [|contradiction].
      apply Nat.ltb_lt in Hlt. destruct Hda as [<-|[]].
      split; [lia|]. apply in_seq. lia. }
    intros Hst Hd.
    assert (Hcases : st = auth \/ In st acts \/
                     (val = true /\
                      st = mkStep (S n) "Validate results and generate proof"
                             [n] "pending")).
    { destruct val.
      - cbn [app] in Hst. destruct Hst as [<-|Hst]; [now left|].
        apply in_app_or in Hst. destruct Hst as [Hst|[<-|[]]].
        + right; now left.
        + right; right. split; [reflexivity|].
          cbn [List.length]. fold n. f_equal. f_equal. lia.
      - destruct Hst as [<-|Hst]; [now left|right; now left]. }
    destruct Hcases as [->|[Ha|(-> & ->)]].
    + contradiction.
    + destruct (Hact Ha Hd) as (Hlt & Hin). split; [exact Hlt|].
      right. apply in_or_app. now left.
    + cbn [dependencies step] in *. destruct Hd as [<-|[]].
      split; [lia|]. right. apply in_or_app. left. apply in_seq. lia.
  - intros Hs. unfold service_sequentialThinking.
    destruct (thinking_actions task) as (acts & -> & _ & _ & _ & Hsimple).
    rewrite (Hsimple Hs). reflexivity.
Qed.

Lemma thinking_dependencies_witness :
  th_steps (service_sequentialThinking "deploy" false true)
  = [mkStep 1 "deploy" [] "pending";
     mkStep 1 "Validate results and generate proof" [0%nat] "pending"].
Proof.
  apply (proj2 (thinking_dependencies "deploy" true)).
  reflexivity.
Defined.

(** * [sendPHAEthereum] *)

Lemma gasLimitFor_bounds (gasEstimate : Z) :
  0 <= gasEstimate ->
  gasEstimate <= gasLimitFor gasEstimate /\
  10 * gasLimitFor gasEstimate <= 11 * gasEstimate.
Proof.
  intros He. unfold gasLimitFor.
  rewrite Z.quot_div_nonneg by lia.
  pose proof (Z.mul_div_le (gasEstimate * 110) 100 ltac:(lia)).
  pose proof (Z.mod_pos_bound (gasEstimate * 110) 100 ltac:(lia)).
  pose proof (Z.div_mod (gasEstimate * 110) 100 ltac:(lia)).
  lia.
Qed.

(** X29.  [sendPHAEthereum] sends at most one transfer, and a transfer it
    sends is covered: the recipient and the parsed amount are those of the
    call, the amount does not exceed the balance the token contract
    reported for the wallet, and the gas limit is the estimate plus a
    buffer of at most ten percent. *)
Theorem transfer_is_covered_by_balance :
  forall (eth : Ethereum) (privateKey : option string) (to amount : string)
         (t : Transfer),
    In t (snd (sendPHAEthereum eth privateKey to amount)) ->
    snd (sendPHAEthereum eth privateKey to amount) = [t] /\
    exists key address decimals balance gasEstimate,
      privateKey = Some key /\
      eth_wallet eth (walletKey key) = inr address /\
      eth_decimals eth = inr decimals /\
      eth_parseUnits eth amount decimals = inr (tr_amount t) /\
      eth_balanceOf eth address = inr balance /\
      tr_amount t <= balance /\
      tr_to t = to /\
      eth_estimateGas eth to (tr_amount t) = inr gasEstimate /\
      tr_gasLimit t = gasLimitFor gasEstimate /\
      (0 <= gasEstimate ->
         gasEstimate <= tr_gasLimit t /\
         10 * tr_gasLimit t <= 11 * gasEstimate).
Proof.
  intros eth pk to amount t.
  unfold sendPHAEthereum, trySendPHAEthereum.
  destruct pk as [key|]; [|simpl; contradiction].
  destruct (key =? "")%string; [simpl; contradiction|].
  destruct (eth_wallet eth (walletKey key)) as [m|address] eqn:Hw;
    [simpl; contradiction|].
  destruct (eth_decimals eth) as [m|decimals] eqn:Hd;
    [simpl; contradiction|].
  destruct (eth_parseUnits eth amount decimals) as [m|amountWei] eqn:Hp;
    [simpl; contradiction|].
  destruct (eth_balanceOf eth address) as [m|balance] eqn:Hb;
    [simpl; contradiction|].
  destruct (balance <? amountWei) eqn:Hlt; [simpl; contradiction|].
  apply Z.ltb_ge in Hlt.
  destruct (eth_estimateGas eth to amountWei) as [m|gasEstimate] eqn:Hg;
    [simpl; contradiction|].
  destruct (eth_gasPrice eth) as [m|gasPrice] eqn:Hgp;
    [simpl; contradiction|].
  assert (Hsent : forall r,
             In t (snd (r : ToolResult SentBody,
                        [mkTransfer to amountWei (gasLimitFor gasEstimate)
                           gasPrice])) ->
             t = mkTransfer to amountWei (gasLimitFor gasEstimate) gasPrice).
  { intros r [H|[]]. now symmetry. }
  destruct (eth_transfer eth _) as [m|[m|receipt]];
    intros Hin; apply Hsent in Hin; subst t; cbn [snd];
    (split; [reflexivity|]);
    exists key, address, decimals, balance, gasEstimate;
    cbn [tr_amount tr_to tr_gasLimit];
    repeat split; auto; apply gasLimitFor_bounds; assumption.
Qed.

Lemma transfer_is_covered_by_balance_witness :
  snd (sendPHAEthereum smallWallet (Some "beef") "0xdef" "1")
  = [mkTransfer "0xdef" 1000000000000000000 55001 20000000000].
Proof.
  apply (proj1 (transfer_is_covered_by_balance smallWallet (Some "beef")
                  "0xdef" "1"
                  (mkTransfer "0xdef" 1000000000000000000 55001
                     20000000000)
                  (or_introl eq_refl))).
Defined.

(** X30.  [sendPHAEthereum] sends nothing, and makes no call at all, when
    no private key is configured; and it sends nothing when the balance is
    short of the amount, answering with the balance and the amount in the
    text. *)
Theorem no_transfer_without_key_or_funds :
  forall (eth : Ethereum) (privateKey : option string) (to amount : string),
    (truthy privateKey = false ->
       sendPHAEthereum eth privateKey to amount
         = (Text "Error sending PHA on Ethereum: Wallet not configured for Ethereum transactions",
            [])) /\
    (forall key address decimals amountWei balance,
       privateKey = Some key -> key <> "" ->
       eth_wallet eth (walletKey key) = inr address ->
       eth_decimals eth = inr decimals ->
       eth_parseUnits eth amount decimals = inr amountWei ->
       eth_balanceOf eth address = inr balance ->
       balance < amountWei ->
       sendPHAEthereum eth privateKey to amount
         = (Text ("Error sending PHA on Ethereum: Insufficient PHA balance. Have "
                  ++ eth_formatUnits eth balance decimals ++ ", need "
                  ++ amount), [])).
Proof.
  intros eth pk to amount. split.
  - intros Hk. unfold sendPHAEthereum, trySendPHAEthereum, truthy in *.
    destruct pk as [key|]; [|reflexivity].
    destruct (key =? "")%string; [reflexivity|discriminate].
  - intros key address decimals amountWei balance -> Hne Hw Hd Hp Hb Hlt.
    unfold sendPHAEthereum, trySendPHAEthereum.
    apply String.eqb_neq in Hne. rewrite Hne, Hw, Hd, Hp, Hb.
    apply Z.ltb_lt in Hlt. rewrite Hlt. reflexivity.
Qed.

Lemma no_transfer_without_key_or_funds_witness :
  sendPHAEthereum smallWallet (Some "beef") "0xdef" "7"
  = (Text "Error sending PHA on Ethereum: Insufficient PHA balance. Have 5.0, need 7",
     []).
Proof.
  assert (Hne : "beef" <> "") by discriminate.
  assert (Hlt : 5000000000000000000 < 7000000000000000000) by lia.
  exact (proj2 (no_transfer_without_key_or_funds smallWallet (Some "beef")
                  "0xdef" "7")
           "beef" "0xabc" 18 7000000000000000000 5000000000000000000
           eq_refl Hne eq_refl eq_refl eq_refl eq_refl Hlt).
Defined.
